(** * Traffic & Road Safety Dashboard: the risk pipeline of traffic_dashboard.py

    A shallow embedding of [load_data] and of the four views of [main]
    (map, top-ten table, trend chart, category tabs), with the properties
    the specification states about them.

    Risk scores are Python floats, so they are modelled by Rocq's primitive
    binary64 floats: comparisons against the thresholds 0.6 and 0.3, the
    product [risk_score * 100] and the not-a-number value behave here as
    they do in the interpreter. *)

From Stdlib Require Import ZArith Lia Floats Ascii DecimalString.
From stdpp Require Import base option list strings gmap sorting.

Set Warnings "-inexact-float".
Local Open Scope Z_scope.

(* ================================================================= *)
(** ** Python floats *)

Module F64.

(** Python's [x >= y], [x < y] and [x <= y] on floats. *)
Definition ge (x y : float) : bool := PrimFloat.leb y x.
Definition lt (x y : float) : bool := PrimFloat.ltb x y.
Definition le (x y : float) : bool := PrimFloat.leb x y.

(** [isna] of pandas on a float cell. *)
Definition isna (x : float) : bool := PrimFloat.is_nan x.

(** A float that is a number: anything but not-a-number. *)
Definition number (x : float) : Prop := isna x = false.

(** The float nearest to an integer (exact below 2^53). *)
Definition of_Z (n : Z) : float := SF2Prim (binary_normalize prec emax n 0 false).

End F64.

#[global] Instance float_inhabited : Inhabited float := populate PrimFloat.zero.

(** The exceptions the program can meet. *)
Inductive exn : Type := IndexError | ValueError | OverflowError.

(* ================================================================= *)
(** ** Python's rounding and fixed-point formatting of floats

    A finite float is exactly [m * 2^e]; both [round(x)] and
    [format(x, '.Nf')] round that exact value to the nearest integer (of
    the value scaled by [10^N]), ties going to the even neighbour. *)

Module Py.

Definition round_half_even (num den : Z) : Z :=
  let q := num / den in
  let r := num mod den in
  match 2 * r ?= den with
  | Lt => q
  | Gt => q + 1
  | Eq => if Z.even q then q else q + 1
  end.

(** [m * 2^e * 10^p] rounded to an integer. *)
Definition scaled_round (m : positive) (e : Z) (p : nat) : Z :=
  let n := Z.pos m * 10 ^ Z.of_nat p in
  if 0 <=? e then n * 2 ^ e else round_half_even n (2 ^ (- e)).

Definition digits (n : Z) : string := NilZero.string_of_uint (N.to_uint (Z.to_N n)).

Fixpoint zeros (n : nat) : string :=
  match n with
  | O => ""
  | S n => String "0"%char (zeros n)
  end.

(** [s.zfill(w)]: left padding with zeros up to width [w]. *)
Definition zfill (w : nat) (s : string) : string :=
  zeros (w - String.length s)%nat +:+ s.

(** The digits of [n / 10^p] with [p] decimals, after the sign. *)
Definition fixed (neg : bool) (n : Z) (p : nat) : string :=
  (if neg then "-" else "") +:+
  digits (n / 10 ^ Z.of_nat p) +:+
  match p with
  | O => ""
  | S _ => "." +:+ zfill p (digits (n mod 10 ^ Z.of_nat p))
  end.

(** [format(x, '.{p}f')], the conversion behind [f"{x:.2f}"]. *)
Definition format_f (p : nat) (x : float) : string :=
  match Prim2SF x with
  | S754_nan => "nan"
  | S754_infinity s => if s then "-inf" else "inf"
  | S754_zero s => fixed s 0 p
  | S754_finite s m e => fixed s (scaled_round m e p) p
  end.

(** [round(x)] with one argument: an [int], or an exception on
    not-a-number and on the infinities. *)
Definition round (x : float) : exn + Z :=
  match Prim2SF x with
  | S754_nan => inl ValueError
  | S754_infinity _ => inl OverflowError
  | S754_zero _ => inr 0
  | S754_finite s m e => inr (cond_Zopp s (scaled_round m e 0))
  end.

(** [str(x)] for the value [st.selectbox] returns: a city, or [None]
    when there is nothing to select. *)
Definition str (o : option string) : string := default "None" o.

End Py.

(* ================================================================= *)
(** ** The library operations the program calls

    pandas and numpy are not part of the repository. What the program
    needs from them and the sources do not fix is gathered in one
    interface: the parser behind [pd.to_numeric], numpy's [argsort] for the
    default sort kind ('quicksort'), [Series.mean], and the largest rate
    [np.random.poisson] accepts. *)

Class Library : Type := {
  (** the number a string cell denotes, if any *)
  str_to_float : string -> option float;
  (** [ndarray.argsort(kind='quicksort')] on an array free of
      not-a-number *)
  argsort : list float -> list nat;
  (** [Series.mean()], which skips not-a-number *)
  mean : list float -> float;
  (** the rate above which [np.random.poisson] raises "lam value too
      large"; numpy derives it from the size of the platform's C long *)
  poisson_lam_max : float
}.

(** [a[ix]] for an integer array [ix] (and [DataFrame.take]): the items at
    the positions listed, [None] standing for the IndexError of a position
    out of bounds. *)
Definition take_at {A : Type} (l : list A) (ix : list nat) : option (list A) :=
  mapM (fun i => l !! i) ix.

(** What numpy documents of [argsort]: the result lists every position
    once, and reading the array in that order gives ascending values. *)
Class ArgsortSorts `{Library} : Prop := {
  argsort_perm : forall xs : list float, argsort xs ≡ₚ seq 0 (length xs);
  argsort_sorted : forall xs ys : list float,
    Forall F64.number xs ->
    take_at xs (argsort xs) = Some ys ->
    Sorted (fun x y => F64.le x y = true) ys
}.

(** Position [a] comes before position [b] in an index array. *)
Definition comes_before {A : Type} (l : list A) (a b : A) : Prop :=
  exists i j : nat, (i < j)%nat /\ l !! i = Some a /\ l !! j = Some b.

(** A stable sort kind (as [kind='stable'] is): positions holding equal
    values stay in increasing order. The default kind does not promise
    it. *)
Class ArgsortStable `{Library} : Prop :=
  argsort_stable : forall (xs : list float) (a b : nat) (x y : float),
    Forall F64.number xs ->
    (a < b)%nat -> xs !! a = Some x -> xs !! b = Some y ->
    F64.le x y = true -> F64.le y x = true ->
    comes_before (argsort xs) a b.

(** [a[mask]] for a boolean array [mask]. *)
Fixpoint compress {A : Type} (mask : list bool) (l : list A) : list A :=
  match mask, l with
  | b :: mask, x :: l => if b then x :: compress mask l else compress mask l
  | _, _ => []
  end.

Section pandas.
Context `{Library}.

(** A cell of a column as [read_csv] leaves it: a float when the text was
    a number (an empty cell is not-a-number), the text itself otherwise. *)
Inductive cell : Type :=
  | CFloat (f : float)
  | CStr (s : string).

(** [pd.to_numeric(..., errors='coerce')] on one cell. *)
Definition to_numeric_coerce (c : cell) : float :=
  match c with
  | CFloat f => f
  | CStr s => default PrimFloat.nan (str_to_float s)
  end.

(** [pandas.core.sorting.nargsort] with [na_position='last']: the
    positions of the numbers in sorted order, then those of the missing
    values. A descending sort reverses the array, sorts, and reverses the
    result. *)
Definition nargsort (items : list float) (ascending : bool) : option (list nat) :=
  let mask := F64.isna <$> items in
  let idx := seq 0 (length items) in
  let non_nans := compress (negb <$> mask) items in
  let non_nan_idx := compress (negb <$> mask) idx in
  let nan_idx := compress mask idx in
  let non_nans := if ascending then non_nans else reverse non_nans in
  let non_nan_idx := if ascending then non_nan_idx else reverse non_nan_idx in
  indexer ← take_at non_nan_idx (argsort non_nans);
  let indexer := if ascending then indexer else reverse indexer in
  Some (indexer ++ nan_idx).

End pandas.

(* ================================================================= *)
(** ** Data model *)

(** One line of roads_data.csv, with the required columns. The city and
    the road name are taken to be text on every line, and the coordinates
    to be numbers or empty (not-a-number): a file with an empty city or
    road name, or with a column of another type, is outside this model.
    Scores are binary64 once [pd.to_numeric] has run: a file whose scores
    are all integer literals gives an int64 column, whose arithmetic
    (line 119) wraps around, and is outside this model too. *)
Record RawRow : Type := {
  raw_city : string;
  raw_road_name : string;
  raw_risk_score : cell;
  raw_latitude : float;
  raw_longitude : float
}.

(** One row of the frame [load_data] returns. *)
Record RoadRecord : Type := {
  city : string;
  road_name : string;
  risk_score : float;
  latitude : float;
  longitude : float;
  risk_category : string
}.

(** A frame: its rows in order, each under its index label. *)
Abbreviation Frame R := (list (nat * R)).
Abbreviation DataFrame := (list (nat * RoadRecord)).

(** [df['risk_score']] as an array. *)
Definition scores (df : DataFrame) : list float := (fun ir => risk_score ir.2) <$> df.

(** [df.empty]. *)
Definition empty {R : Type} (df : Frame R) : bool :=
  match df with
  | [] => true
  | _ :: _ => false
  end.

(** [df.head(n)]. *)
Definition head {R : Type} (n : nat) (df : Frame R) : Frame R := take n df.

(* ================================================================= *)
(** ** [load_data] *)

(** Lines 65-71: the nested function [categorize_risk]. *)
Definition categorize_risk (score : float) : string :=
  if F64.ge score 0.6%float then "High"
  else if F64.ge score 0.3%float then "Medium"
  else "Low".

Section load.
Context `{Library}.

(** Lines 63 and 72 on one row: the score is coerced, then classified. *)
Definition load_row (r : RawRow) : RoadRecord :=
  let score := to_numeric_coerce (raw_risk_score r) in
  {| city := raw_city r;
     road_name := raw_road_name r;
     risk_score := score;
     latitude := raw_latitude r;
     longitude := raw_longitude r;
     risk_category := categorize_risk score |}.

(** Lines 61-73. The argument is the content of the file at [path], as
    [pd.read_csv] splits it into rows; the frame gets the labels
    0, 1, 2, ... *)
Definition load_data (csv : list RawRow) : DataFrame :=
  imap (fun i r => (i, load_row r)) csv.

End load.

(* ================================================================= *)
(** ** The pipeline of [main] *)

(** Line 89: [data[data['city'] == selected_city]]. Nothing equals the
    [None] that the select box returns when it has no option. *)
Definition filter_by_city (data : DataFrame) (selected_city : option string) : DataFrame :=
  filter (fun ir => Some (city ir.2) = selected_city) data.

(** Lines 151, 156, 161: [city_data[city_data['risk_category'] == c]]. *)
Definition filter_by_category (city_data : DataFrame) (c : string) : DataFrame :=
  filter (fun ir => risk_category ir.2 = c) city_data.

(** The three buckets of the tabs, under their category. *)
Definition partition_by_category (city_data : DataFrame) : list (string * DataFrame) :=
  (fun c => (c, filter_by_category city_data c)) <$> ["High"; "Medium"; "Low"].

Section ranking.
Context `{Library}.

(** [df.sort_values('risk_score', ascending=...)], default kind. *)
Definition sort_values (df : DataFrame) (ascending : bool) : option DataFrame :=
  indexer ← nargsort (scores df) ascending;
  take_at df indexer.

(** Line 117: the ten riskiest roads of the city. *)
Definition top_n (city_data : DataFrame) : option DataFrame :=
  head 10 <$> sort_values city_data false.

End ranking.

(** Line 119: the row of [top] once the column risk_percentage is set. *)
Definition with_risk_percentage (r : RoadRecord) : RoadRecord * float :=
  (r, (risk_score r * 100)%float).

(** Line 123: the text of a cell of the column "Risk (%)". *)
Definition format_percentage (x : float) : string := Py.format_f 1 x +:+ "%".

(* ================================================================= *)
(** ** The page *)

Record Marker : Type := {
  location : float * float;
  radius : Z;
  popup : string;
  color : string;
  fill : bool;
  fill_color : string;
  fill_opacity : float
}.

(** What a run puts on the page, in order. The trend chart keeps the rate
    and the number of days of its Poisson draw: the counts themselves come
    from numpy's generator and the dates from the clock. *)
Inductive Widget : Type :=
  | PageConfig (page_title layout : string)
  | Title (s : string)
  | Selectbox (label : string) (options : list string)
  | Subheader (s : string)
  | Info (s : string)
  | Write (s : string)
  | FoliumMap (center : float * float) (zoom_start : Z) (markers : list Marker)
  | Table (columns : list string) (rows : Frame (list cell))
  | Pyplot (title : string) (base : Z) (periods : nat)
  | Tabs (labels : list string)
  | InTab (label : string) (w : Widget).

(** The local variables of [main] that hold frames, and the page. *)
Record Session : Type := {
  data : DataFrame;
  selected_city : option string;
  city_data : DataFrame;
  page : list Widget
}.

(** A step of [main]: it reads and updates the session and returns a
    value, or stops on an exception. *)
Definition App (A : Type) : Type := Session -> (exn + A) * Session.

#[global] Instance app_ret : MRet App := fun A a s => (inr a, s).
#[global] Instance app_bind : MBind App := fun A B k m s =>
  match m s with
  | (inl e, s') => (inl e, s')
  | (inr a, s') => k a s'
  end.

Definition raise {A : Type} (e : exn) : App A := fun s => (inl e, s).
Definition gets {A : Type} (f : Session -> A) : App A := fun s => (inr (f s), s).
Definition modify (f : Session -> Session) : App unit := fun s => (inr tt, f s).

Definition emit (w : Widget) : App unit :=
  modify (fun s => {| data := data s; selected_city := selected_city s;
                      city_data := city_data s; page := page s ++ [w] |}).
Definition set_data (df : DataFrame) : App unit :=
  modify (fun s => {| data := df; selected_city := selected_city s;
                      city_data := city_data s; page := page s |}).
Definition set_selected_city (c : option string) : App unit :=
  modify (fun s => {| data := data s; selected_city := c;
                      city_data := city_data s; page := page s |}).
Definition set_city_data (df : DataFrame) : App unit :=
  modify (fun s => {| data := data s; selected_city := selected_city s;
                      city_data := df; page := page s |}).

Definition from_option {A : Type} (e : exn) (o : option A) : App A :=
  match o with
  | Some a => mret a
  | None => raise e
  end.
Definition from_sum {A : Type} (r : exn + A) : App A :=
  match r with
  | inl e => raise e
  | inr a => mret a
  end.

Definition start : Session :=
  {| data := []; selected_city := None; city_data := []; page := [] |}.

(** Line 98. *)
Definition colour_map : gmap string string :=
  {[ "High" := "red"; "Medium" := "orange"; "Low" := "green" ]}.

(** Lines 105 and 107: [colour_map.get(row['risk_category'], 'blue')]. *)
Definition marker_colour (category : string) : string :=
  default "blue" (colour_map !! category).

(** Lines 101-109. *)
Definition circle_marker (row : RoadRecord) : Marker :=
  {| location := (latitude row, longitude row);
     radius := 6;
     popup := road_name row +:+ " – Risk Score: " +:+ Py.format_f 2 (risk_score row);
     color := marker_colour (risk_category row);
     fill := true;
     fill_color := marker_colour (risk_category row);
     fill_opacity := 0.7%float |}.

(** [sorted(data['city'].unique())]: the cities in order of first
    appearance, then sorted as Python sorts strings (by code point,
    which is the byte order of their UTF-8 text). The cities of [RawRow]
    are text; on a column that mixes text with empty cells, which this
    model leaves out, [sorted] raises TypeError. *)
Fixpoint unique (l : list string) : list string :=
  match l with
  | [] => []
  | x :: l => x :: filter (fun y => y <> x) (unique l)
  end.
Definition str_le (a b : string) : Prop := String.leb a b = true.
#[global] Instance str_le_dec : RelDecision str_le :=
  fun a b => bool_eq_dec (String.leb a b) true.
Definition sorted (l : list string) : list string := merge_sort str_le l.

(** The table of a tab (lines 151-152): the columns road_name and
    risk_score under the names "Road" and "Score". *)
Definition score_table (df : DataFrame) : Widget :=
  Table ["Road"; "Score"]
    ((fun ir => (ir.1, [CStr (road_name ir.2); CFloat (risk_score ir.2)])) <$> df).

(** The table of the ranking (lines 119-123): the columns road_name,
    risk_percentage and risk_category under their display names, the
    percentage as text. *)
Definition top_display (top : Frame (RoadRecord * float)) : Widget :=
  Table ["Road"; "Risk (%)"; "Category"]
    ((fun ir => (ir.1, [CStr (road_name ir.2.1);
                        CStr (format_percentage ir.2.2);
                        CStr (risk_category ir.2.1)])) <$> top).

Section views.
Context `{Library}.

(** folium checks every location it is given ([folium.Map] at line 96,
    [folium.CircleMarker] at line 101) and raises ValueError on a
    not-a-number coordinate. *)
Definition validate_location (location : float * float) : App unit :=
  if F64.isna location.1 || F64.isna location.2 then raise ValueError else mret tt.

(** Lines 92-113. The map and its markers are built first (lines 94-109);
    the heading and the map reach the page at lines 110-111 only, so a
    location folium refuses leaves nothing of the view on the page. *)
Definition map_view : App unit :=
  city_data ← gets city_data;
  selected_city ← gets selected_city;
  if negb (empty city_data) then
    let center_lat := mean ((fun ir => latitude ir.2) <$> city_data) in
    let center_lon := mean ((fun ir => longitude ir.2) <$> city_data) in
    validate_location (center_lat, center_lon);;
    mapM (fun ir => validate_location (latitude ir.2, longitude ir.2)) city_data;;
    emit (Subheader ("Accident Risk Map of " +:+ Py.str selected_city));;
    emit (FoliumMap (center_lat, center_lon) 12
            ((fun ir => circle_marker ir.2) <$> city_data))
  else
    emit (Info "No data available for this city.").

(** Lines 116-124. [top] is a fresh frame (a sorted copy), so the new
    column lands on it and on nothing else. *)
Definition table_view : App unit :=
  emit (Subheader "Top Risky Roads");;
  city_data ← gets city_data;
  top ← from_option IndexError (top_n city_data);
  let top := (fun ir => (ir.1, with_risk_percentage ir.2)) <$> top in
  emit (top_display top).

(** Line 133: [np.random.poisson(base, ...)] takes the rate as a float and
    raises ValueError when it is above the bound. *)
Definition check_poisson_rate (base : Z) : App unit :=
  if F64.le (F64.of_Z base) poisson_lam_max then mret tt else raise ValueError.

(** Lines 127-144. *)
Definition trend_view : App unit :=
  emit (Subheader "High‑Risk Trend (Last 7 Days)");;
  city_data ← gets city_data;
  selected_city ← gets selected_city;
  if negb (empty city_data) then
    rounded ← from_sum (Py.round (mean (scores city_data) * 10)%float);
    let base := Z.max rounded 1 in
    check_poisson_rate base;;
    emit (Pyplot ("High‑Risk Trend in " +:+ Py.str selected_city) base 7)
  else
    emit (Write "Insufficient data to display risk trend.").

(** Lines 147-163. *)
Definition tabs_view : App unit :=
  emit (Subheader "Roads by Risk Category");;
  emit (Tabs ["High Risk"; "Medium Risk"; "Low Risk"]);;
  city_data ← gets city_data;
  emit (InTab "High Risk" (Write "High‑risk roads:"));;
  emit (InTab "High Risk" (score_table (filter_by_category city_data "High")));;
  emit (InTab "Medium Risk" (Write "Medium‑risk roads:"));;
  emit (InTab "Medium Risk" (score_table (filter_by_category city_data "Medium")));;
  emit (InTab "Low Risk" (Write "Low‑risk roads:"));;
  emit (InTab "Low Risk" (score_table (filter_by_category city_data "Low"))).

(** Lines 76-163. [csv] is the content of roads_data.csv and [choice]
    what the visitor picks in the select box. Up to line 89 nothing can
    raise on the files of this model (see [RawRow] and [sorted]); the
    views can. *)
Definition main (csv : list RawRow) (choice : option string) : App unit :=
  emit (PageConfig "Traffic & Road Safety Dashboard" "wide");;
  emit (Title "Traffic & Road Safety Dashboard");;
  set_data (load_data csv);;
  data ← gets data;
  let cities := sorted (unique ((fun ir => city ir.2) <$> data)) in
  emit (Selectbox "Select City" cities);;
  set_selected_city choice;;
  set_city_data (filter_by_city data choice);;
  map_view;;
  table_view;;
  trend_view;;
  tabs_view.

End views.

(* ================================================================= *)
(** ** Instances of the library interface

    Simple implementations of the three library operations, on which the
    program can be run: a parser of plain decimal numbers, an insertion
    sort, and the mean as a running sum. *)

Module Reference.

(** Plain decimals: an optional sign, digits, and at most one point. *)
Fixpoint decimal_digits (s : string) (num : Z) (frac : option nat) (seen : bool)
  : option (Z * nat) :=
  match s with
  | EmptyString => if seen then Some (num, default 0%nat frac) else None
  | String c s =>
      if Ascii.eqb c "."%char then
        match frac with
        | None => decimal_digits s num (Some 0%nat) seen
        | Some _ => None
        end
      else
        let d := Z.of_nat (nat_of_ascii c) - 48 in
        if (0 <=? d) && (d <=? 9) then
          decimal_digits s (10 * num + d) (S <$> frac) true
        else None
  end.

Definition parse_decimal (s : string) : option float :=
  let '(neg, body) :=
    match s with
    | String "-"%char s' => (true, s')
    | _ => (false, s)
    end in
  '(num, k) ← decimal_digits body 0 None false;
  let x := (F64.of_Z num / F64.of_Z (10 ^ Z.of_nat k))%float in
  Some (if neg then (- x)%float else x).

(** Insertion of a keyed position into a sorted list; [before x y] says
    whether a new key [x] goes in front of the key [y] it meets. *)
Fixpoint insert_by (before : float -> float -> bool) (x : float * nat)
    (l : list (float * nat)) : list (float * nat) :=
  match l with
  | [] => [x]
  | y :: l' => if before x.1 y.1 then x :: l else y :: insert_by before x l'
  end.

Definition argsort_by (before : float -> float -> bool) (xs : list float) : list nat :=
  snd <$> foldr (insert_by before) [] (zip xs (seq 0 (length xs))).

(** The order of the keys, and the order the stable sort builds: by key,
    and by position among equal keys. *)
Definition by_key (p q : float * nat) : Prop := F64.le p.1 q.1 = true.
Definition key_then_position (p q : float * nat) : Prop :=
  F64.le p.1 q.1 = true /\ (F64.le q.1 p.1 = true -> (p.2 < q.2)%nat).

(** A key goes in front of the first key it does not exceed: equal keys
    stay in input order. *)
Definition argsort_stable : list float -> list nat := argsort_by F64.le.

(** A key goes in front of the first key above it: equal keys end up in
    the reverse of their input order. *)
Definition argsort_backward : list float -> list nat := argsort_by F64.lt.

Definition mean_skipna (xs : list float) : float :=
  let numbers := filter F64.number xs in
  (foldl PrimFloat.add 0%float numbers / F64.of_Z (Z.of_nat (length numbers)))%float.

(** numpy's bound where a C long has 64 bits:
    [np.iinfo('l').max - np.sqrt(np.iinfo('l').max) * 10]. *)
Definition lam_max_int64 : float :=
  (F64.of_Z (2 ^ 63 - 1) - PrimFloat.sqrt (F64.of_Z (2 ^ 63 - 1)) * 10)%float.

Definition stable : Library :=
  {| str_to_float := parse_decimal; argsort := argsort_stable; mean := mean_skipna;
     poisson_lam_max := lam_max_int64 |}.

Definition backward : Library :=
  {| str_to_float := parse_decimal; argsort := argsort_backward; mean := mean_skipna;
     poisson_lam_max := lam_max_int64 |}.

End Reference.

(** A line of the file with the score 0.734. *)
Definition karachi_line : RawRow :=
  {| raw_city := "Karachi"; raw_road_name := "Shahrah-e-Faisal";
     raw_risk_score := CStr "0.734";
     raw_latitude := 24.87%float; raw_longitude := 67.08%float |}.

(** A small file: three roads of Lahore, one of them with a score that is
    not a number, and one road of Karachi. *)
Definition sample_csv : list RawRow :=
  [ {| raw_city := "Lahore"; raw_road_name := "Mall Road";
       raw_risk_score := CStr "0.75"; raw_latitude := 31.56; raw_longitude := 74.35 |};
    {| raw_city := "Lahore"; raw_road_name := "Canal Road";
       raw_risk_score := CStr "abc"; raw_latitude := 31.51; raw_longitude := 74.33 |};
    karachi_line;
    {| raw_city := "Lahore"; raw_road_name := "Jail Road";
       raw_risk_score := CStr "0.5"; raw_latitude := 31.54; raw_longitude := 74.34 |};
    {| raw_city := "Lahore"; raw_road_name := "Ferozepur Road";
       raw_risk_score := CStr "0.5"; raw_latitude := 31.50; raw_longitude := 74.32 |} ]%float.


(** A file whose only city has no score that is a number. *)
Definition unscored_csv : list RawRow :=
  [ {| raw_city := "Multan"; raw_road_name := "Bosan Road";
       raw_risk_score := CStr "n/a"; raw_latitude := 30.22; raw_longitude := 71.48 |};
    {| raw_city := "Multan"; raw_road_name := "Abdali Road";
       raw_risk_score := CStr "abc"; raw_latitude := 30.20; raw_longitude := 71.47 |} ]%float.

(** Two roads of one city with the same score, in file order. *)
Definition tied_roads : DataFrame :=
  [ (3%nat, {| city := "Lahore"; road_name := "Jail Road"; risk_score := 0.5;
               latitude := 31.54; longitude := 74.34; risk_category := "Medium" |});
    (4%nat, {| city := "Lahore"; road_name := "Ferozepur Road"; risk_score := 0.5;
               latitude := 31.50; longitude := 74.32; risk_category := "Medium" |}) ]%float.

(* ================================================================= *)
(** ** The vocabulary of the properties *)

(** In a ranking by descending score, [x] may stand before [y]: [y] is
    missing, or both are numbers and [x >= y]. *)
Definition ranks_before (x y : float) : Prop :=
  F64.isna y = true \/ F64.ge x y = true.

(** The same score on two rows: each is at least the other. *)
Definition tied (x y : float) : Prop :=
  F64.le x y = true /\ F64.le y x = true.

(** Rows of a frame with tied scores keep, in the ranking, the order they
    have in the frame. Positions are those of the full sort, of which the
    ranking is the first ten. *)
Definition ties_keep_input_order `{Library} : Prop :=
  forall (city_data : DataFrame) (p q : nat) (rp rq : nat * RoadRecord),
    (p < q)%nat ->
    city_data !! p = Some rp -> city_data !! q = Some rq ->
    tied (risk_score rp.2) (risk_score rq.2) ->
    exists (ranked top : DataFrame) (i j : nat),
      sort_values city_data false = Some ranked /\
      top_n city_data = Some top /\
      top = head 10 ranked /\
      (i < j)%nat /\
      ranked !! i = Some rp /\ ranked !! j = Some rq /\
      ((j < 10)%nat -> top !! i = Some rp /\ top !! j = Some rq).

(** The widgets a step adds to the page. *)
Definition drawn (view : App unit) (s : Session) : list Widget :=
  drop (length (page s)) (page (view s).2).

(** [st.info] and [st.write]: a line of text for the visitor. *)
Definition is_notice (w : Widget) : bool :=
  match w with
  | Info _ | Write _ => true
  | _ => false
  end.

(** A table without a single row, on the page or in a tab. *)
Definition is_empty_table (w : Widget) : bool :=
  match w with
  | Table _ [] | InTab _ (Table _ []) => true
  | _ => false
  end.

(** A view handles the absence of data explicitly: it ends without an
    exception, it tells the visitor so, and it draws no empty table. *)
Definition reports_no_data (view : App unit) (s : Session) : Prop :=
  (view s).1 = inr tt /\
  existsb is_notice (drawn view s) = true /\
  existsb is_empty_table (drawn view s) = false.

(** The session once some widgets are added to the page. *)
Definition shows (s : Session) (ws : list Widget) : Session :=
  {| data := data s; selected_city := selected_city s;
     city_data := city_data s; page := page s ++ ws |}.

(* ================================================================= *)
(** ** The vocabulary of the properties of the page *)

(** Line 85: the options of the select box. *)
Definition cities (data : DataFrame) : list string :=
  sorted (unique ((fun ir => city ir.2) <$> data)).

(** Lines 78-86: what is on the page before the views. *)
Definition header (data : DataFrame) : list Widget :=
  [PageConfig "Traffic & Road Safety Dashboard" "wide";
   Title "Traffic & Road Safety Dashboard";
   Selectbox "Select City" (cities data)].

(** The session when the first view starts (line 92). *)
Definition at_views `{Library} (csv : list RawRow) (choice : option string) : Session :=
  {| data := load_data csv;
     selected_city := choice;
     city_data := filter_by_city (load_data csv) choice;
     page := header (load_data csv) |}.

(** What each view draws when it draws its data. *)
Definition map_widgets `{Library} (choice : option string) (df : DataFrame) : list Widget :=
  [Subheader ("Accident Risk Map of " +:+ Py.str choice);
   FoliumMap (mean ((fun ir => latitude ir.2) <$> df), mean ((fun ir => longitude ir.2) <$> df))
     12 ((fun ir => circle_marker ir.2) <$> df)].

Definition table_widgets (top : DataFrame) : list Widget :=
  [Subheader "Top Risky Roads";
   top_display ((fun ir => (ir.1, with_risk_percentage ir.2)) <$> top)].

Definition tab_widgets (df : DataFrame) : list Widget :=
  [Subheader "Roads by Risk Category";
   Tabs ["High Risk"; "Medium Risk"; "Low Risk"];
   InTab "High Risk" (Write "High‑risk roads:");
   InTab "High Risk" (score_table (filter_by_category df "High"));
   InTab "Medium Risk" (Write "Medium‑risk roads:");
   InTab "Medium Risk" (score_table (filter_by_category df "Medium"));
   InTab "Low Risk" (Write "Low‑risk roads:");
   InTab "Low Risk" (score_table (filter_by_category df "Low"))].

(** The widgets of the last view, and the chart. *)
Definition is_tab_widget (w : Widget) : bool :=
  match w with
  | Tabs _ | InTab _ _ => true
  | _ => false
  end.

Definition is_chart (w : Widget) : bool :=
  match w with
  | Pyplot _ _ _ => true
  | _ => false
  end.

(** Lines 92-163: the four views, one after the other. *)
Definition views `{Library} : App unit :=
  map_view;; table_view;; trend_view;; tabs_view.

(** The rows of a city cannot be put on a map: the mean of their
    latitudes or of their longitudes is not a number, or a row has a
    coordinate that is not a number. *)
Definition unplottable `{Library} (df : DataFrame) : bool :=
  F64.isna (mean ((fun ir => latitude ir.2) <$> df))
  || F64.isna (mean ((fun ir => longitude ir.2) <$> df))
  || existsb (fun ir => F64.isna (latitude ir.2) || F64.isna (longitude ir.2)) df.

(** Lines 130-133: the rate of the chart, or the exception that [round]
    or [np.random.poisson] raises. *)
Definition trend_rate `{Library} (df : DataFrame) : exn + Z :=
  match Py.round (mean (scores df) * 10)%float with
  | inl e => inl e
  | inr n =>
      if F64.le (F64.of_Z (Z.max n 1)) poisson_lam_max then inr (Z.max n 1)
      else inl ValueError
  end.

(** The session of the sample file when Karachi is chosen. *)
Definition karachi_session : Session := @at_views Reference.stable sample_csv (Some "Karachi").

(** The categories from the least to the most severe. *)
Definition category_rank (c : string) : nat :=
  if String.eqb c "High" then 2
  else if String.eqb c "Medium" then 1
  else 0.

(* ================================================================= *)
(** ** Facts on binary64 comparisons *)

Module F64Facts.
Import F64.

Lemma SFcompare_refl (s : spec_float) :
  s <> S754_nan -> SFcompare s s = Some Eq.
Proof.
  destruct s as [[]|[]| |[] m e]; simpl; intros H; try congruence;
    rewrite ?Z.compare_refl, ?Pos.compare_cont_refl; reflexivity.
Qed.

Lemma isna_spec (x : float) : isna x = true <-> Prim2SF x = S754_nan.
Proof.
  unfold isna, is_nan. rewrite FloatAxioms.eqb_spec. unfold SFeqb. split.
  - destruct (Prim2SF x) eqn:E; try reflexivity;
      rewrite SFcompare_refl by discriminate; discriminate.
  - intros ->. reflexivity.
Qed.

Lemma number_spec (x : float) : number x <-> Prim2SF x <> S754_nan.
Proof.
  unfold number. rewrite <- isna_spec. destruct (isna x); split; congruence.
Qed.

(** Swapping the arguments of a comparison reverses its outcome. *)
Lemma SFcompare_swap (a b : spec_float) :
  SFcompare b a = CompOpp <$> SFcompare a b.
Proof.
  destruct a as [[]|[]| |[] m1 e1], b as [[]|[]| |[] m2 e2];
    try reflexivity; simpl; f_equal;
    rewrite (Z.compare_antisym e1 e2);
    destruct (e1 ?= e2)%Z; simpl; try reflexivity;
    rewrite (Pos.compare_cont_antisym m1 m2 Eq); simpl;
    destruct (Pos.compare_cont Eq m1 m2); reflexivity.
Qed.

Lemma SFcompare_number (a b : spec_float) :
  a <> S754_nan -> b <> S754_nan -> is_Some (SFcompare a b).
Proof.
  destruct a as [[]|[]| |[] m1 e1], b as [[]|[]| |[] m2 e2];
    simpl; intros; try congruence; eauto.
Qed.

(** Among numbers, [x < y] is the negation of [y <= x]. *)
Lemma lt_not_ge (x y : float) :
  number x -> number y -> lt x y = negb (ge x y).
Proof.
  rewrite !number_spec. intros Hx Hy. unfold lt, ge.
  rewrite FloatAxioms.ltb_spec, FloatAxioms.leb_spec. unfold SFltb, SFleb.
  rewrite (SFcompare_swap (Prim2SF x) (Prim2SF y)).
  destruct (SFcompare_number _ _ Hx Hy) as [c ->].
  destruct c; reflexivity.
Qed.

Lemma le_total (x y : float) :
  number x -> number y -> le x y = true \/ le y x = true.
Proof.
  rewrite !number_spec. intros Hx Hy. unfold le.
  rewrite !FloatAxioms.leb_spec. unfold SFleb.
  rewrite (SFcompare_swap (Prim2SF x) (Prim2SF y)).
  destruct (SFcompare_number _ _ Hx Hy) as [c ->].
  destruct c; simpl; auto.
Qed.

Lemma lt_le (x y : float) : lt x y = true -> le x y = true.
Proof.
  unfold lt, le. rewrite FloatAxioms.ltb_spec, FloatAxioms.leb_spec. unfold SFltb, SFleb.
  destruct (SFcompare _ _) as [[]|]; congruence.
Qed.

(** A comparison with not-a-number is false on either side. *)
Lemma le_nan_l (x y : float) : isna x = true -> le x y = false.
Proof.
  rewrite isna_spec. unfold le. rewrite FloatAxioms.leb_spec. intros ->. reflexivity.
Qed.

Lemma le_nan_r (x y : float) : isna y = true -> le x y = false.
Proof.
  rewrite isna_spec. unfold le. rewrite FloatAxioms.leb_spec. intros ->.
  destruct (Prim2SF x); reflexivity.
Qed.

Lemma le_number (x y : float) : le x y = true -> number x /\ number y.
Proof.
  intros H. unfold number. split.
  - destruct (isna x) eqn:E; [|reflexivity].
    rewrite (le_nan_l x y E) in H. discriminate.
  - destruct (isna y) eqn:E; [|reflexivity].
    rewrite (le_nan_r x y E) in H. discriminate.
Qed.

(** The order of [SFcompare] is lexicographic on sign, exponent and
    mantissa, hence transitive. *)
Local Ltac compare_cases :=
  repeat match goal with
    | H : context [Z.compare ?a ?b] |- _ => destruct (Z.compare_spec a b)
    | |- context [Z.compare ?a ?b] => destruct (Z.compare_spec a b)
    | H : context [Pos.compare ?a ?b] |- _ => destruct (Pos.compare_spec a b)
    | |- context [Pos.compare ?a ?b] => destruct (Pos.compare_spec a b)
    end.

Lemma SFleb_trans (a b c : spec_float) :
  SFleb a b = true -> SFleb b c = true -> SFleb a c = true.
Proof.
  unfold SFleb.
  destruct a as [[]|[]| |[] m1 e1], b as [[]|[]| |[] m2 e2],
           c as [[]|[]| |[] m3 e3]; simpl; try congruence;
    change (Pos.compare_cont Eq) with Pos.compare;
    intros H1 H2; compare_cases; simpl in *;
    solve [ reflexivity | discriminate | exfalso; lia ].
Qed.

Lemma le_trans (x y z : float) :
  le x y = true -> le y z = true -> le x z = true.
Proof. unfold le. rewrite !FloatAxioms.leb_spec. apply SFleb_trans. Qed.

End F64Facts.

(** C1. For every numeric risk score [s] (a float that is not the
    not-a-number value), [categorize_risk] returns "High" if and only if
    [s >= 0.6], "Medium" if and only if [0.3 <= s < 0.6], and "Low" if and
    only if [s < 0.3]. *)
Theorem categorize_risk_thresholds (s : float) :
  F64.number s ->
  (categorize_risk s = "High" <-> F64.ge s 0.6%float = true) /\
  (categorize_risk s = "Medium" <->
     F64.ge s 0.3%float = true /\ F64.lt s 0.6%float = true) /\
  (categorize_risk s = "Low" <-> F64.lt s 0.3%float = true).
Proof.
  intros Hs.
  assert (H6 : F64.number 0.6%float) by reflexivity.
  assert (H3 : F64.number 0.3%float) by reflexivity.
  rewrite !(F64Facts.lt_not_ge s) by assumption.
  assert (Hmono : F64.ge s 0.6%float = true -> F64.ge s 0.3%float = true).
  { unfold F64.ge. apply F64Facts.le_trans. reflexivity. }
  unfold categorize_risk.
  destruct (F64.ge s 0.6%float) eqn:E6.
  - rewrite (Hmono eq_refl). simpl. intuition congruence.
  - destruct (F64.ge s 0.3%float) eqn:E3; simpl; intuition congruence.
Qed.

Lemma categorize_risk_thresholds_witness :
  F64.number 0.45%float /\
  (categorize_risk 0.45%float = "Medium" <->
     F64.ge 0.45%float 0.3%float = true /\ F64.lt 0.45%float 0.6%float = true).
Proof.
  split; [reflexivity|].
  exact (proj1 (proj2 (categorize_risk_thresholds 0.45%float eq_refl))).
Defined.

(* ================================================================= *)
(** ** [load_data] *)

Section load_facts.
Context `{Library}.

Lemma categorize_risk_cases (s : float) :
  categorize_risk s = "High" \/ categorize_risk s = "Medium" \/ categorize_risk s = "Low".
Proof.
  unfold categorize_risk.
  destruct (F64.ge s 0.6%float); [|destruct (F64.ge s 0.3%float)]; auto.
Qed.

Lemma categorize_risk_nan (s : float) : F64.isna s = true -> categorize_risk s = "Low".
Proof.
  intros Hs. unfold categorize_risk, F64.ge.
  change PrimFloat.leb with F64.le.
  rewrite !F64Facts.le_nan_r by assumption. reflexivity.
Qed.

Lemma load_data_length (csv : list RawRow) : length (load_data csv) = length csv.
Proof. apply length_imap. Qed.

Lemma load_data_lookup (csv : list RawRow) (i : nat) :
  load_data csv !! i = (fun r => (i, load_row r)) <$> csv !! i.
Proof. apply list_lookup_imap. Qed.

Lemma load_data_labels (csv : list RawRow) :
  (load_data csv).*1 = seq 0 (length csv).
Proof.
  unfold load_data.
  enough (Hk : forall k : nat,
             (imap (fun i r => ((k + i)%nat, load_row r)) csv).*1 = seq k (length csv))
    by exact (Hk 0%nat).
  induction csv as [|r csv IH]; intros k; [reflexivity|].
  cbn. rewrite Nat.add_0_r. f_equal.
  rewrite <- (IH (S k)). f_equal. apply imap_ext.
  intros i x _. cbn. f_equal. lia.
Qed.

(** Every row of the loaded frame is the image of a line of the file. *)
Lemma load_data_rows (csv : list RawRow) :
  Forall (fun ir => exists raw, ir.2 = load_row raw) (load_data csv).
Proof.
  apply Forall_forall. intros [i r] Hin.
  apply elem_of_lookup_imap_1 in Hin as (j & raw & Heq & _).
  injection Heq as -> ->. eauto.
Qed.

Lemma load_row_category (raw : RawRow) :
  risk_category (load_row raw) = categorize_risk (risk_score (load_row raw)).
Proof. reflexivity. Qed.

(** Every row of the loaded frame carries the category of its score, one
    of the three. *)
Lemma load_data_categories (csv : list RawRow) :
  Forall (fun ir =>
            risk_category ir.2 = categorize_risk (risk_score ir.2) /\
            risk_category ir.2 ∈ ["High"; "Medium"; "Low"])
         (load_data csv).
Proof.
  eapply Forall_impl; [apply load_data_rows|].
  intros [i r] [raw ->]. cbn. split; [reflexivity|].
  destruct (categorize_risk_cases (to_numeric_coerce (raw_risk_score raw)))
    as [-> | [-> | ->]]; set_solver.
Qed.

End load_facts.

(** C2. A line of the file whose risk_score cannot be parsed as a number
    does not stop the load: the frame has as many rows as the file, the
    row stands at its place with its city and road name, its score is
    not-a-number, and its category is "Low". *)
Theorem load_data_unparseable_score `{Library}
    (csv : list RawRow) (i : nat) (raw : RawRow) (s : string) :
  csv !! i = Some raw ->
  raw_risk_score raw = CStr s ->
  str_to_float s = None ->
  length (load_data csv) = length csv /\
  exists r : RoadRecord,
    load_data csv !! i = Some (i, r) /\
    city r = raw_city raw /\ road_name r = raw_road_name raw /\
    F64.isna (risk_score r) = true /\
    risk_category r = categorize_risk (risk_score r) /\
    risk_category r = "Low".
Proof.
  intros Hi Hcell Hparse. split; [apply load_data_length|].
  exists (load_row raw). rewrite load_data_lookup, Hi.
  assert (Hnan : F64.isna (risk_score (load_row raw)) = true).
  { cbn. rewrite Hcell. cbn. rewrite Hparse. reflexivity. }
  repeat split; try assumption.
  rewrite load_row_category. apply categorize_risk_nan, Hnan.
Qed.

Lemma load_data_unparseable_score_witness :
  length (@load_data Reference.stable sample_csv) = length sample_csv /\
  exists r : RoadRecord,
    @load_data Reference.stable sample_csv !! 1%nat = Some (1%nat, r) /\
    city r = "Lahore" /\ road_name r = "Canal Road" /\
    F64.isna (risk_score r) = true /\
    risk_category r = categorize_risk (risk_score r) /\
    risk_category r = "Low".
Proof.
  exact (@load_data_unparseable_score Reference.stable sample_csv 1%nat _ "abc"
           eq_refl eq_refl eq_refl).
Defined.

(** C8. Classification is total over the loaded frame: [load_data] keeps
    one row per line of the file, under the labels 0, 1, 2, ..., and every
    row, whatever its score, carries the category [categorize_risk] gives
    to its score, which is one of "High", "Medium" and "Low". *)
Theorem load_data_total `{Library} (csv : list RawRow) :
  length (load_data csv) = length csv /\
  (load_data csv).*1 = seq 0 (length csv) /\
  Forall (fun ir =>
            risk_category ir.2 = categorize_risk (risk_score ir.2) /\
            risk_category ir.2 ∈ ["High"; "Medium"; "Low"])
         (load_data csv).
Proof.
  split; [apply load_data_length|]. split; [apply load_data_labels|].
  apply load_data_categories.
Qed.

(** C10. Every record [load_data] produces has one of the three
    categories "High", "Medium", "Low"; hence, for the rows of any city,
    the colour lookup of the map finds its key, and the marker is red,
    orange or green, never the blue of the fallback. *)
Theorem marker_colour_never_fallback `{Library}
    (csv : list RawRow) (choice : option string) :
  Forall (fun ir => risk_category ir.2 ∈ ["High"; "Medium"; "Low"]) (load_data csv) /\
  Forall (fun ir =>
            is_Some (colour_map !! risk_category ir.2) /\
            color (circle_marker ir.2) ∈ ["red"; "orange"; "green"] /\
            fill_color (circle_marker ir.2) ∈ ["red"; "orange"; "green"] /\
            color (circle_marker ir.2) <> "blue")
         (filter_by_city (load_data csv) choice).
Proof.
  assert (Hcat : Forall (fun ir => risk_category ir.2 ∈ ["High"; "Medium"; "Low"])
                   (load_data csv)).
  { eapply Forall_impl; [apply load_data_categories|]. by intros ir [_ Hc]. }
  split; [exact Hcat|].
  apply Forall_forall. intros ir Hin.
  apply list_elem_of_filter in Hin as [_ Hin].
  rewrite Forall_forall in Hcat. specialize (Hcat ir Hin).
  cbn. unfold marker_colour.
  repeat (apply elem_of_cons in Hcat as [-> | Hcat]);
    [| | |by apply elem_of_nil in Hcat];
    (split; [by vm_compute; eauto|]);
    vm_compute; repeat split; try discriminate; set_solver.
Qed.

(* ================================================================= *)
(** ** Filters: the city subset and the category buckets *)

Lemma filter_by_city_elem (data : DataFrame) (choice : option string) (ir : nat * RoadRecord) :
  ir ∈ filter_by_city data choice <-> Some (city ir.2) = choice /\ ir ∈ data.
Proof. unfold filter_by_city. by rewrite list_elem_of_filter. Qed.

Lemma filter_by_category_elem (df : DataFrame) (c : string) (ir : nat * RoadRecord) :
  ir ∈ filter_by_category df c <-> risk_category ir.2 = c /\ ir ∈ df.
Proof. unfold filter_by_category. by rewrite list_elem_of_filter. Qed.

Lemma filter_by_category_disjoint (df : DataFrame) (c1 c2 : string) (ir : nat * RoadRecord) :
  c1 <> c2 -> ~ (ir ∈ filter_by_category df c1 /\ ir ∈ filter_by_category df c2).
Proof.
  intros Hne [H1 H2].
  apply filter_by_category_elem in H1 as [H1 _].
  apply filter_by_category_elem in H2 as [H2 _]. congruence.
Qed.

(** When every row has one of the three categories, the buckets put end
    to end are the rows of the frame, each exactly once. *)
Lemma buckets_permutation (df : DataFrame) :
  Forall (fun ir => risk_category ir.2 ∈ ["High"; "Medium"; "Low"]) df ->
  filter_by_category df "High" ++ filter_by_category df "Medium"
    ++ filter_by_category df "Low" ≡ₚ df.
Proof.
  unfold filter_by_category.
  induction 1 as [|ir df Hc _ IH]; [reflexivity|].
  rewrite !filter_cons.
  repeat (apply elem_of_cons in Hc as [Hc | Hc]);
    [| | |by apply elem_of_nil in Hc];
    rewrite Hc; repeat case_decide; try discriminate; try congruence; cbn.
  - by rewrite IH.
  - rewrite <- Permutation_middle. by rewrite IH.
  - rewrite app_assoc, <- Permutation_middle, <- app_assoc. by rewrite IH.
Qed.

(** C6. For the rows of any city, the three buckets of the tabs are
    pairwise disjoint, a row of the subset is in one of them and the
    buckets hold nothing else (put end to end they are a rearrangement of
    the subset), and each bucket lists its rows in the order of the
    subset. *)
Theorem partition_by_category_partition `{Library}
    (csv : list RawRow) (choice : option string) :
  partition_by_category (filter_by_city (load_data csv) choice) =
    [("High", filter_by_category (filter_by_city (load_data csv) choice) "High");
     ("Medium", filter_by_category (filter_by_city (load_data csv) choice) "Medium");
     ("Low", filter_by_category (filter_by_city (load_data csv) choice) "Low")] /\
  (forall (c1 c2 : string) (ir : nat * RoadRecord),
     c1 <> c2 ->
     ~ (ir ∈ filter_by_category (filter_by_city (load_data csv) choice) c1 /\
        ir ∈ filter_by_category (filter_by_city (load_data csv) choice) c2)) /\
  (forall ir : nat * RoadRecord,
     ir ∈ filter_by_city (load_data csv) choice <->
     ir ∈ filter_by_category (filter_by_city (load_data csv) choice) "High" \/
     ir ∈ filter_by_category (filter_by_city (load_data csv) choice) "Medium" \/
     ir ∈ filter_by_category (filter_by_city (load_data csv) choice) "Low") /\
  filter_by_category (filter_by_city (load_data csv) choice) "High"
    ++ filter_by_category (filter_by_city (load_data csv) choice) "Medium"
    ++ filter_by_category (filter_by_city (load_data csv) choice) "Low"
    ≡ₚ filter_by_city (load_data csv) choice /\
  (forall c : string,
     filter_by_category (filter_by_city (load_data csv) choice) c
       `sublist_of` filter_by_city (load_data csv) choice).
Proof.
  set (city_data := filter_by_city (load_data csv) choice).
  assert (Hcat : Forall (fun ir => risk_category ir.2 ∈ ["High"; "Medium"; "Low"]) city_data).
  { apply Forall_forall. intros ir Hin.
    apply filter_by_city_elem in Hin as [_ Hin].
    pose proof (load_data_categories csv) as Hall.
    rewrite Forall_forall in Hall. apply (Hall ir Hin). }
  split; [reflexivity|].
  split; [intros c1 c2 ir; apply filter_by_category_disjoint|].
  split; [|split; [apply buckets_permutation, Hcat|intros c; apply sublist_filter]].
  intros ir. rewrite !filter_by_category_elem. split.
  - intros Hin. rewrite Forall_forall in Hcat. specialize (Hcat ir Hin).
    repeat (apply elem_of_cons in Hcat as [Hcat | Hcat]); [| | |by apply elem_of_nil in Hcat];
      auto.
  - intros [[_ Hin] | [[_ Hin] | [_ Hin]]]; exact Hin.
Qed.

(** C7. Filtering by city is idempotent: filtering the subset of a city
    again by that city returns the same rows; and when no row of the
    frame is of the city, the subset is the empty frame. *)
Theorem filter_by_city_idempotent (data : DataFrame) (choice : option string) :
  filter_by_city (filter_by_city data choice) choice = filter_by_city data choice /\
  ((forall ir : nat * RoadRecord, ir ∈ data -> Some (city ir.2) <> choice) ->
   filter_by_city data choice = []).
Proof.
  split.
  - unfold filter_by_city. rewrite list_filter_filter.
    apply list_filter_iff. intros ir. tauto.
  - intros Hnone. unfold filter_by_city.
    induction data as [|ir data IH]; [reflexivity|].
    rewrite filter_cons. case_decide as Hc.
    + exfalso. apply (Hnone ir); [left|exact Hc].
    + apply IH. intros ir' Hin. apply Hnone. by right.
Qed.

Lemma filter_by_city_idempotent_witness :
  (forall ir : nat * RoadRecord,
     ir ∈ @load_data Reference.stable sample_csv -> Some (city ir.2) <> Some "Quetta") /\
  filter_by_city (@load_data Reference.stable sample_csv) (Some "Quetta") = [].
Proof.
  assert (Hnone : forall ir : nat * RoadRecord,
            ir ∈ @load_data Reference.stable sample_csv ->
            Some (city ir.2) <> Some "Quetta").
  { intros ir Hin. cbn in Hin.
    repeat (apply elem_of_cons in Hin as [-> | Hin]; [discriminate|]).
    by apply elem_of_nil in Hin. }
  split; [exact Hnone|].
  exact (proj2 (filter_by_city_idempotent _ _) Hnone).
Defined.

(* ================================================================= *)
(** ** Index arrays *)

Section take_at_facts.
Context {A : Type}.
Implicit Types (l : list A) (ix : list nat).

Lemma take_at_Some l ix ys :
  take_at l ix = Some ys <-> Forall2 (fun i y => l !! i = Some y) ix ys.
Proof. apply mapM_Some. Qed.

Lemma take_at_length l ix ys : take_at l ix = Some ys -> length ys = length ix.
Proof. intros Hys. apply take_at_Some in Hys. symmetry. by eapply Forall2_length. Qed.

Lemma take_at_lookup l ix ys (k i : nat) :
  take_at l ix = Some ys -> ix !! k = Some i -> ys !! k = l !! i.
Proof.
  intros Hys Hk. apply take_at_Some in Hys.
  destruct (Forall2_lookup_l _ _ _ _ _ Hys Hk) as (y & -> & Hy). by symmetry.
Qed.

Lemma take_at_seq_offset (pre l : list A) :
  take_at (pre ++ l) (seq (length pre) (length l)) = Some l.
Proof.
  apply take_at_Some. revert pre.
  induction l as [|x l IH]; intros pre; cbn; constructor.
  - by rewrite list_lookup_middle.
  - specialize (IH (pre ++ [x])).
    rewrite length_app, Nat.add_1_r, <- app_assoc in IH. exact IH.
Qed.

Lemma take_at_seq l : take_at l (seq 0 (length l)) = Some l.
Proof. exact (take_at_seq_offset [] l). Qed.

Lemma take_at_app l ix1 ix2 ys1 ys2 :
  take_at l ix1 = Some ys1 -> take_at l ix2 = Some ys2 ->
  take_at l (ix1 ++ ix2) = Some (ys1 ++ ys2).
Proof. rewrite !take_at_Some. apply Forall2_app. Qed.

Lemma take_at_reverse l ix ys :
  take_at l ix = Some ys -> take_at l (reverse ix) = Some (reverse ys).
Proof. rewrite !take_at_Some. apply Forall2_reverse. Qed.

(** Reading through a rearranged index array rearranges the result. *)
Lemma take_at_Permutation l ix ix' ys' :
  ix ≡ₚ ix' -> take_at l ix' = Some ys' ->
  exists ys, take_at l ix = Some ys /\ ys ≡ₚ ys'.
Proof.
  intros Hp. revert ys'. setoid_rewrite take_at_Some.
  induction Hp as [|i ix ix' _ IH|i j ix|ix ix1 ix' _ IH1 _ IH2]; intros ys' Hys'.
  - inv Hys'. exists []. split; constructor.
  - inv Hys' as [|? y ? ys'' Hy Hrest].
    destruct (IH _ Hrest) as (ys & Hys & Hperm).
    exists (y :: ys). split; [by constructor|by constructor].
  - inv Hys' as [|? y1 ? ys1 Hy1 Hrest]. inv Hrest as [|? y2 ? ys2 Hy2 Hrest'].
    exists (y2 :: y1 :: ys2). split; [by repeat constructor|apply perm_swap].
  - destruct (IH2 _ Hys') as (ys1 & Hys1 & Hp1).
    destruct (IH1 _ Hys1) as (ys & Hys & Hp2).
    exists ys. split; [exact Hys|by etrans].
Qed.

(** An index array that lists every position once reads the whole list. *)
Lemma take_at_total l ix :
  ix ≡ₚ seq 0 (length l) -> exists ys, take_at l ix = Some ys /\ ys ≡ₚ l.
Proof. intros Hp. exact (take_at_Permutation l _ _ _ Hp (take_at_seq l)). Qed.

Lemma take_at_fmap {B : Type} (f : A -> B) l ix ys :
  take_at l ix = Some ys -> take_at (f <$> l) ix = Some (f <$> ys).
Proof.
  rewrite take_at_Some. intros Hys. apply mapM_Some, Forall2_fmap_r.
  eapply Forall2_impl; [exact Hys|].
  intros i y Hi. cbn. by rewrite list_lookup_fmap, Hi.
Qed.

End take_at_facts.

(** Reading [xs] through positions that were themselves read through [P]
    is reading through [P] what the positions select. *)
Lemma take_at_compose {A : Type} (xs zs : list A) (l1 l2 P : list nat) :
  take_at xs l1 = Some zs -> take_at l1 P = Some l2 ->
  exists ws, take_at zs P = Some ws /\ take_at xs l2 = Some ws.
Proof.
  rewrite !take_at_Some. intros Hzs. revert l2.
  induction P as [|j P IH]; intros l2 Hl2.
  - inv Hl2. exists []. split; apply take_at_Some; constructor.
  - inv Hl2 as [|? i ? l2' Hi Hrest].
    destruct (IH _ Hrest) as (ws & Hws1 & Hws2).
    destruct (Forall2_lookup_l _ _ _ _ _ Hzs Hi) as (z & Hz & Hxz).
    exists (z :: ws). rewrite !take_at_Some in *. split; by constructor.
Qed.

(* ================================================================= *)
(** ** Boolean masks *)

Section compress_facts.
Context {A : Type}.
Implicit Types (l : list A) (mask : list bool).

Lemma compress_length_eq {B : Type} mask l (k : list B) :
  length l = length k -> length (compress mask l) = length (compress mask k).
Proof.
  revert l k. induction mask as [|b mask IH]; intros [|x l] [|y k] Hlen;
    try discriminate; try reflexivity.
  injection Hlen as Hlen. destruct b; cbn; auto.
Qed.

Lemma compress_split mask l :
  length mask = length l ->
  compress (negb <$> mask) l ++ compress mask l ≡ₚ l.
Proof.
  revert l. induction mask as [|b mask IH]; intros [|x l] Hlen;
    try discriminate; [reflexivity|].
  injection Hlen as Hlen. specialize (IH l Hlen).
  destruct b; cbn.
  - by rewrite <- Permutation_middle, IH.
  - by rewrite IH.
Qed.

Lemma compress_Forall (f : A -> bool) l :
  Forall (fun x => f x = true) (compress (f <$> l) l).
Proof.
  induction l as [|x l IH]; cbn; [constructor|].
  destruct (f x) eqn:E; [by constructor|exact IH].
Qed.

(** The positions kept by a mask select the items it keeps. *)
Lemma take_at_compress_offset (pre l : list A) mask :
  take_at (pre ++ l) (compress mask (seq (length pre) (length l))) = Some (compress mask l).
Proof.
  apply take_at_Some. revert pre mask.
  induction l as [|x l IH]; intros pre [|b mask]; cbn; try constructor.
  specialize (IH (pre ++ [x]) mask).
  rewrite length_app, Nat.add_1_r, <- app_assoc in IH.
  destruct b; [constructor|]; [by rewrite list_lookup_middle|exact IH..].
Qed.

Lemma take_at_compress l mask :
  take_at l (compress mask (seq 0 (length l))) = Some (compress mask l).
Proof. exact (take_at_compress_offset [] l mask). Qed.

End compress_facts.

(* ================================================================= *)
(** ** Sorted lists of scores *)

#[global] Instance le_transitive : Transitive (fun x y : float => F64.le x y = true).
Proof. intros x y z. apply F64Facts.le_trans. Qed.

#[global] Instance ge_transitive : Transitive (flip (fun x y : float => F64.le x y = true)).
Proof. intros x y z Hxy Hyz. exact (F64Facts.le_trans _ _ _ Hyz Hxy). Qed.

Lemma StronglySorted_mono {A : Type} (R R' : relation A) (l : list A) :
  (forall x y, R x y -> R' x y) -> StronglySorted R l -> StronglySorted R' l.
Proof.
  intros HR. induction 1 as [|x l _ IH Hx]; constructor; [exact IH|].
  eapply Forall_impl; [exact Hx|]. intros y. apply HR.
Qed.

Lemma StronglySorted_take {A : Type} (R : relation A) (n : nat) (l : list A) :
  StronglySorted R l -> StronglySorted R (take n l).
Proof.
  intros Hl. rewrite <- (take_drop n l) in Hl.
  by apply StronglySorted_app_1_l in Hl.
Qed.

(** Missing scores rank in any order among themselves. *)
Lemma ranks_before_missing (l : list float) :
  Forall (fun x => F64.isna x = true) l -> StronglySorted ranks_before l.
Proof.
  induction 1 as [|x l _ Hl IH]; constructor; [exact IH|].
  eapply Forall_impl; [exact Hl|]. intros y Hy. by left.
Qed.

(** Ascending numbers read backwards, then the missing scores: a
    descending ranking. *)
Lemma ranks_before_descending (ws nans : list float) :
  Sorted (fun x y => F64.le x y = true) ws ->
  Forall (fun x => F64.isna x = true) nans ->
  StronglySorted ranks_before (reverse ws ++ nans).
Proof.
  intros Hws Hnans. apply StronglySorted_app_2.
  - intros x y _ Hy. left. rewrite Forall_forall in Hnans. by apply Hnans.
  - apply Sorted_reverse, Sorted_StronglySorted in Hws; [|apply _].
    eapply StronglySorted_mono; [|exact Hws].
    intros x y Hxy. right. exact Hxy.
  - by apply ranks_before_missing.
Qed.

(* ================================================================= *)
(** ** The insertion sorts satisfy numpy's contract *)

Lemma StronglySorted_lookup {A : Type} (R : relation A) (l : list A) :
  StronglySorted R l <->
  (forall (i j : nat) (x y : A), l !! i = Some x -> l !! j = Some y -> (i < j)%nat -> R x y).
Proof.
  split.
  - induction 1 as [|z l _ IH Hz]; intros i j x y Hi Hj Hij; [by destruct i|].
    destruct j as [|j]; [lia|]. cbn in Hj.
    destruct i as [|i]; cbn in Hi.
    + injection Hi as <-. rewrite Forall_forall in Hz.
      eapply Hz, list_elem_of_lookup_2, Hj.
    + eapply (IH i j); eauto with lia.
  - induction l as [|z l IH]; intros Hl; constructor.
    + apply IH. intros i j x y Hi Hj Hij. apply (Hl (S i) (S j)); auto with lia.
    + apply Forall_forall. intros y Hy.
      apply list_elem_of_lookup_1 in Hy as [j Hj].
      apply (Hl 0%nat (S j)); auto with lia.
Qed.

Module ReferenceFacts.
Import Reference.

Section insertion.
Variable before : float -> float -> bool.
Hypothesis before_le : forall x y, before x y = true -> F64.le x y = true.
Hypothesis before_ge : forall x y,
  F64.number x -> F64.number y -> before x y = false -> F64.le y x = true.

Lemma insert_by_Permutation (x : float * nat) (l : list (float * nat)) :
  insert_by before x l ≡ₚ x :: l.
Proof.
  induction l as [|y l IH]; [reflexivity|]. cbn.
  destruct (before x.1 y.1); [reflexivity|].
  rewrite IH. apply perm_swap.
Qed.

Lemma isort_Permutation (kl : list (float * nat)) :
  foldr (insert_by before) [] kl ≡ₚ kl.
Proof.
  induction kl as [|p kl IH]; [reflexivity|]. cbn.
  by rewrite insert_by_Permutation, IH.
Qed.

Lemma argsort_by_Permutation (xs : list float) :
  argsort_by before xs ≡ₚ seq 0 (length xs).
Proof.
  unfold argsort_by. rewrite isort_Permutation, snd_zip; [reflexivity|].
  by rewrite length_seq.
Qed.

Lemma insert_by_HdRel (y x : float * nat) (l : list (float * nat)) :
  by_key y x -> HdRel by_key y l -> HdRel by_key y (insert_by before x l).
Proof.
  intros Hyx Hl. destruct l as [|z l]; cbn; [by constructor|].
  destruct (before x.1 z.1); constructor; [exact Hyx|]. by inv Hl.
Qed.

Lemma insert_by_Sorted (x : float * nat) (l : list (float * nat)) :
  F64.number x.1 -> Forall (fun p => F64.number p.1) l ->
  Sorted by_key l -> Sorted by_key (insert_by before x l).
Proof.
  intros Hx Hnum Hl. induction Hl as [|y l Hl IH Hy]; cbn.
  - repeat constructor.
  - inv Hnum as [|? ? Hny Hnl].
    destruct (before x.1 y.1) eqn:E.
    + constructor; [by constructor|]. constructor. by apply before_le.
    + constructor; [by apply IH|].
      apply insert_by_HdRel; [|exact Hy]. by apply before_ge.
Qed.

Lemma isort_Sorted (kl : list (float * nat)) :
  Forall (fun p => F64.number p.1) kl -> Sorted by_key (foldr (insert_by before) [] kl).
Proof.
  induction 1 as [|p kl Hp Hkl IH]; cbn; [constructor|].
  apply insert_by_Sorted; [exact Hp| |exact IH].
  by rewrite isort_Permutation.
Qed.

(** A keyed list whose keys are the items at its positions reads back as
    its keys. *)
Lemma take_at_keyed (xs : list float) (kl : list (float * nat)) :
  Forall (fun p => xs !! p.2 = Some p.1) kl -> take_at xs kl.*2 = Some kl.*1.
Proof.
  intros Hkl. apply take_at_Some.
  induction Hkl as [|p kl Hp _ IH]; cbn; by constructor.
Qed.

Lemma zip_seq_keyed (xs : list float) :
  Forall (fun p => xs !! p.2 = Some p.1) (zip xs (seq 0 (length xs))).
Proof.
  apply Forall_lookup. intros i [x k] Hi.
  apply lookup_zip_Some in Hi as [Hx Hk].
  apply lookup_seq in Hk as [-> _]. exact Hx.
Qed.

Lemma argsort_by_read (xs : list float) :
  take_at xs (argsort_by before xs)
  = Some (foldr (insert_by before) [] (zip xs (seq 0 (length xs)))).*1.
Proof.
  apply take_at_keyed. rewrite isort_Permutation. apply zip_seq_keyed.
Qed.

Lemma argsort_by_Sorted (xs ys : list float) :
  Forall F64.number xs ->
  take_at xs (argsort_by before xs) = Some ys ->
  Sorted (fun x y => F64.le x y = true) ys.
Proof.
  intros Hxs. rewrite argsort_by_read. intros [= <-].
  apply (Sorted_fmap _ by_key); [auto|].
  apply isort_Sorted, Forall_forall. intros [x k] Hin. cbn.
  apply elem_of_zip_l in Hin. rewrite Forall_forall in Hxs. by apply Hxs.
Qed.

End insertion.

Lemma lt_ge_total (x y : float) :
  F64.number x -> F64.number y -> F64.lt x y = false -> F64.le y x = true.
Proof.
  intros Hx Hy. rewrite (F64Facts.lt_not_ge x y Hx Hy). unfold F64.ge.
  change PrimFloat.leb with F64.le. by destruct (F64.le y x).
Qed.

Lemma le_ge_total (x y : float) :
  F64.number x -> F64.number y -> F64.le x y = false -> F64.le y x = true.
Proof.
  intros Hx Hy Hxy. destruct (F64Facts.le_total x y Hx Hy); congruence.
Qed.

(** Both insertion sorts are sorts in numpy's sense. *)
Lemma stable_sorts : @ArgsortSorts Reference.stable.
Proof.
  split; cbn.
  - apply argsort_by_Permutation.
  - apply argsort_by_Sorted; [auto|apply le_ge_total].
Qed.

Lemma backward_sorts : @ArgsortSorts Reference.backward.
Proof.
  split; cbn.
  - apply argsort_by_Permutation.
  - apply argsort_by_Sorted; [apply F64Facts.lt_le|apply lt_ge_total].
Qed.

End ReferenceFacts.

Module StableFacts.
Import Reference ReferenceFacts.

Lemma insert_by_stable (x : float * nat) (l : list (float * nat)) :
  F64.number x.1 -> Forall (fun p => F64.number p.1) l ->
  Forall (fun q => (x.2 < q.2)%nat) l ->
  StronglySorted key_then_position l ->
  StronglySorted key_then_position (insert_by F64.le x l).
Proof.
  intros Hx Hnum Hpos Hl.
  induction Hl as [|y l Hl IH Hy]; cbn; [repeat constructor|].
  inv Hnum as [|? ? Hny Hnl]. inv Hpos as [|? ? Hpy Hpl].
  fold (F64.le x.1 y.1). destruct (F64.le x.1 y.1) eqn:E.
  - constructor; [by constructor|]. constructor; [by split|].
    rewrite Forall_forall in Hy, Hpl. apply Forall_forall. intros z Hz. split.
    + eapply F64Facts.le_trans; [exact E|]. by apply Hy.
    + intros _. by apply Hpl.
  - constructor; [by apply IH|].
    rewrite insert_by_Permutation. constructor; [|exact Hy]. split.
    + by apply le_ge_total.
    + congruence.
Qed.

Lemma isort_stable (kl : list (float * nat)) :
  Forall (fun p => F64.number p.1) kl ->
  StronglySorted (fun p q => (p.2 < q.2)%nat) kl ->
  StronglySorted key_then_position (foldr (insert_by F64.le) [] kl).
Proof.
  intros Hnum Hpos. induction Hpos as [|p kl Hpos IH Hp]; cbn; [constructor|].
  inv Hnum as [|? ? Hnp Hnl].
  apply insert_by_stable; [exact Hnp| | |by apply IH];
    by rewrite isort_Permutation.
Qed.

Lemma zip_seq_positions (xs : list float) :
  StronglySorted (fun p q : float * nat => (p.2 < q.2)%nat) (zip xs (seq 0 (length xs))).
Proof.
  apply StronglySorted_lookup. intros i j [x a] [y b] Hi Hj Hij.
  apply lookup_zip_Some in Hi as [_ Hi]. apply lookup_zip_Some in Hj as [_ Hj].
  apply lookup_seq in Hi as [-> _]. apply lookup_seq in Hj as [-> _]. cbn. lia.
Qed.

Lemma stable_stable : @ArgsortStable Reference.stable.
Proof.
  intros xs a b x y Hnum Hab Ha Hb Hxy Hyx. cbn.
  unfold argsort_stable, argsort_by, comes_before.
  set (sp := foldr (insert_by F64.le) [] (zip xs (seq 0 (length xs)))).
  assert (Hsp : StronglySorted key_then_position sp).
  { apply isort_stable; [|apply zip_seq_positions].
    apply Forall_forall. intros [z k] Hin. cbn.
    apply elem_of_zip_l in Hin. rewrite Forall_forall in Hnum. by apply Hnum. }
  assert (Hin : forall (c : nat) (z : float), xs !! c = Some z -> exists i, sp !! i = Some (z, c)).
  { intros c z Hc. apply list_elem_of_lookup_1.
    unfold sp. rewrite isort_Permutation.
    apply (list_elem_of_lookup_2 _ c), lookup_zip_Some. split; [exact Hc|].
    apply lookup_seq. split; [reflexivity|]. by eapply lookup_lt_Some. }
  destruct (Hin a x Ha) as [i Hi]. destruct (Hin b y Hb) as [j Hj].
  exists i, j. rewrite !list_lookup_fmap, Hi, Hj. repeat split.
  destruct (Nat.lt_trichotomy i j) as [Hlt | [-> | Hgt]]; [exact Hlt| |].
  - rewrite Hi in Hj. injection Hj as _ ->. lia.
  - rewrite StronglySorted_lookup in Hsp.
    destruct (Hsp j i _ _ Hj Hi Hgt) as [_ Hba]. cbn in Hba.
    specialize (Hba Hxy). lia.
Qed.

End StableFacts.

(* ================================================================= *)
(** ** The descending sort of [sort_values] *)

Section sort_facts.
Context `{Library} `{!ArgsortSorts}.

Lemma compress_numbers (xs : list float) :
  Forall F64.number (compress (negb <$> (F64.isna <$> xs)) xs).
Proof.
  rewrite <- list_fmap_compose.
  eapply Forall_impl; [apply compress_Forall|].
  intros x. unfold F64.number. cbn. by destruct (F64.isna x).
Qed.

(** The index array of a descending sort: it lists every position once;
    read through it, the scores are ascending numbers backwards, followed
    by the missing scores. *)
Lemma nargsort_descending (xs : list float) :
  exists (ix : list nat) (ws : list float),
    nargsort xs false = Some ix /\
    ix ≡ₚ seq 0 (length xs) /\
    take_at xs ix = Some (reverse ws ++ compress (F64.isna <$> xs) xs) /\
    Sorted (fun x y => F64.le x y = true) ws.
Proof.
  set (mask := F64.isna <$> xs).
  set (nn := compress (negb <$> mask) xs).
  set (ni := compress (negb <$> mask) (seq 0 (length xs))).
  set (na := compress mask (seq 0 (length xs))).
  assert (Hni : take_at xs (reverse ni) = Some (reverse nn))
    by apply take_at_reverse, take_at_compress.
  assert (Hlen : length (reverse nn) = length (reverse ni)).
  { rewrite !length_reverse. apply compress_length_eq. by rewrite length_seq. }
  pose proof (argsort_perm (reverse nn)) as HP. rewrite Hlen in HP.
  destruct (take_at_total _ _ HP) as (ix0 & Hix0 & Hperm0).
  destruct (take_at_compose _ _ _ _ _ Hni Hix0) as (ws & Hws & Hread).
  exists (reverse ix0 ++ na), ws. repeat split.
  - unfold nargsort. fold mask. fold nn. fold ni. fold na.
    cbn. rewrite Hix0. reflexivity.
  - rewrite reverse_Permutation, Hperm0, reverse_Permutation.
    apply compress_split. unfold mask. by rewrite length_fmap, length_seq.
  - apply take_at_app; [by apply take_at_reverse|apply take_at_compress].
  - eapply argsort_sorted; [|exact Hws].
    apply Forall_reverse, compress_numbers.
Qed.

(** The rows of a descending sort: a rearrangement of the frame whose
    scores form a descending ranking. *)
Lemma sort_values_descending (df : DataFrame) :
  exists ranked : DataFrame,
    sort_values df false = Some ranked /\
    ranked ≡ₚ df /\
    StronglySorted ranks_before (scores ranked).
Proof.
  destruct (nargsort_descending (scores df)) as (ix & ws & Hix & Hperm & Hread & Hws).
  unfold scores in Hperm at 1. rewrite length_fmap in Hperm.
  destruct (take_at_total df ix Hperm) as (ranked & Hranked & Hrp).
  exists ranked. split; [|split; [exact Hrp|]].
  - unfold sort_values. rewrite Hix. exact Hranked.
  - apply (take_at_fmap (fun ir => risk_score ir.2)) in Hranked.
    fold (scores df) (scores ranked) in Hranked.
    rewrite Hread in Hranked. injection Hranked as <-.
    apply ranks_before_descending; [exact Hws|].
    apply compress_Forall.
Qed.

End sort_facts.

(** C5. For the rows of any city, the ranking holds at most ten records
    (ten, or all of them when there are fewer), its scores are in
    descending order, the records without a score coming last, and a
    subset of fewer than ten records is ranked whole. The records of the
    ranking are records of the subset. *)
Theorem top_n_sorted `{Library} `{!ArgsortSorts} (city_data : DataFrame) :
  exists top : DataFrame,
    top_n city_data = Some top /\
    (length top <= 10)%nat /\
    length top = Nat.min 10 (length city_data) /\
    StronglySorted ranks_before (scores top) /\
    ((length city_data < 10)%nat ->
     length top = length city_data /\ top ≡ₚ city_data) /\
    (exists rest : DataFrame, top ++ rest ≡ₚ city_data).
Proof.
  destruct (sort_values_descending city_data) as (ranked & Hsort & Hperm & Hsorted).
  exists (head 10 ranked). unfold top_n. rewrite Hsort.
  assert (Hlen : length (head 10 ranked) = Nat.min 10 (length city_data)).
  { unfold head. by rewrite length_take, Hperm. }
  split; [reflexivity|]. split; [lia|]. split; [exact Hlen|]. split; [|split].
  - unfold scores, head. rewrite fmap_take. by apply StronglySorted_take.
  - intros Hfew. split; [lia|].
    unfold head. rewrite take_ge; [exact Hperm|]. rewrite Hperm. lia.
  - exists (drop 10 ranked). unfold head. by rewrite take_drop.
Qed.

Lemma top_n_sorted_witness :
  exists top : DataFrame,
    @top_n Reference.stable
      (filter_by_city (@load_data Reference.stable sample_csv) (Some "Lahore")) = Some top /\
    (length top <= 10)%nat /\
    length top = 4%nat /\
    StronglySorted ranks_before (scores top).
Proof.
  destruct (@top_n_sorted Reference.stable ReferenceFacts.stable_sorts
              (filter_by_city (@load_data Reference.stable sample_csv) (Some "Lahore")))
    as (top & Htop & Hle & Hlen & Hsorted & _).
  exists top. auto.
Defined.

(* ================================================================= *)
(** ** Ties *)


Lemma StronglySorted_sublist {A : Type} (R : relation A) (l k : list A) :
  l `sublist_of` k -> StronglySorted R k -> StronglySorted R l.
Proof.
  induction 1 as [|x l k Hs IH|x l k Hs IH]; intros Hk; [constructor|..].
  - inv Hk as [|? ? Hk' Hx]. constructor; [by apply IH|].
    rewrite Forall_forall in Hx. apply Forall_forall. intros y Hy.
    apply Hx. by eapply sublist_subseteq.
  - inv Hk. by apply IH.
Qed.

Lemma compress_sublist {A : Type} (mask : list bool) (l : list A) :
  compress mask l `sublist_of` l.
Proof.
  revert l. induction mask as [|b mask IH]; intros [|x l]; cbn;
    try apply sublist_nil_l.
  destruct b; constructor; apply IH.
Qed.

(** The positions a mask keeps include every position whose item
    passes. *)
Lemma compress_seq_elem {A : Type} (f : A -> bool) (pre l : list A) (i : nat) (x : A) :
  (pre ++ l) !! i = Some x -> (length pre <= i)%nat -> f x = true ->
  i ∈ compress (f <$> l) (seq (length pre) (length l)).
Proof.
  revert pre. induction l as [|z l IH]; intros pre Hi Hle Hf.
  - rewrite app_nil_r in Hi. apply lookup_lt_Some in Hi. lia.
  - cbn. destruct (decide (i = length pre)) as [->|Hne].
    + rewrite list_lookup_middle in Hi by reflexivity. injection Hi as ->.
      rewrite Hf. left.
    + specialize (IH (pre ++ [z])).
      rewrite length_app, Nat.add_1_r, <- app_assoc in IH.
      assert (Hin : i ∈ compress (f <$> l) (seq (S (length pre)) (length l)))
        by (apply IH; [exact Hi|lia|exact Hf]).
      destruct (f z); [by right|exact Hin].
Qed.

(** Two positions whose items pass the mask are kept in their order. *)
Lemma compress_seq_order {A : Type} (f : A -> bool) (l : list A) (p q : nat) (x y : A) :
  (p < q)%nat -> l !! p = Some x -> l !! q = Some y -> f x = true -> f y = true ->
  exists a b : nat,
    (a < b)%nat /\
    compress (f <$> l) (seq 0 (length l)) !! a = Some p /\
    compress (f <$> l) (seq 0 (length l)) !! b = Some q.
Proof.
  intros Hpq Hp Hq Hx Hy.
  set (ni := compress (f <$> l) (seq 0 (length l))).
  assert (Hsorted : StronglySorted lt ni).
  { eapply StronglySorted_sublist; [apply compress_sublist|].
    apply StronglySorted_lookup. intros i j a b Hi Hj Hij.
    apply lookup_seq in Hi as [-> _]. apply lookup_seq in Hj as [-> _]. lia. }
  assert (Hpin : p ∈ ni) by (apply (compress_seq_elem f [] l p x); [exact Hp|cbn; lia|exact Hx]).
  assert (Hqin : q ∈ ni) by (apply (compress_seq_elem f [] l q y); [exact Hq|cbn; lia|exact Hy]).
  apply list_elem_of_lookup_1 in Hpin as [a Ha].
  apply list_elem_of_lookup_1 in Hqin as [b Hb].
  exists a, b. repeat split; [|exact Ha|exact Hb].
  rewrite StronglySorted_lookup in Hsorted.
  destruct (Nat.lt_trichotomy a b) as [Hlt | [-> | Hgt]]; [exact Hlt| |].
  - rewrite Ha in Hb. injection Hb as ->. lia.
  - specialize (Hsorted b a _ _ Hb Ha Hgt). lia.
Qed.

Section stable_sort.
Context `{Library} `{!ArgsortSorts} `{!ArgsortStable}.

(** With a stable kind, the reversals of a descending sort cancel out:
    two positions with tied scores come out in increasing order. *)
Lemma nargsort_stable (xs : list float) (p q : nat) (x y : float) (ix : list nat) :
  (p < q)%nat -> xs !! p = Some x -> xs !! q = Some y -> tied x y ->
  nargsort xs false = Some ix ->
  comes_before ix p q.
Proof.
  intros Hpq Hp Hq [Hxy Hyx].
  destruct (F64Facts.le_number _ _ Hxy) as [Hnx Hny].
  unfold nargsort.
  rewrite <- (list_fmap_compose F64.isna negb xs).
  set (ni := compress ((negb ∘ F64.isna) <$> xs) (seq 0 (length xs))).
  set (nn := compress ((negb ∘ F64.isna) <$> xs) xs).
  set (na := compress (F64.isna <$> xs) (seq 0 (length xs))).
  destruct (take_at (reverse ni) (argsort (reverse nn))) as [ix0|] eqn:Hix0;
    [|discriminate].
  cbn. intros [= <-].
  destruct (compress_seq_order (negb ∘ F64.isna) xs p q x y Hpq Hp Hq)
    as (a & b & Hab & Ha & Hb).
  { cbn. unfold F64.number in Hnx. by rewrite Hnx. }
  { cbn. unfold F64.number in Hny. by rewrite Hny. }
  fold ni in Ha, Hb.
  assert (Hlen : length nn = length ni).
  { apply compress_length_eq. by rewrite length_seq. }
  pose proof (lookup_lt_Some _ _ _ Ha) as Hla.
  pose proof (lookup_lt_Some _ _ _ Hb) as Hlb.
  set (m := length ni) in *.
  assert (Hra : reverse ni !! (m - S a)%nat = Some p).
  { rewrite reverse_lookup by (fold m; lia). fold m.
    replace (m - S (m - S a))%nat with a by lia. exact Ha. }
  assert (Hrb : reverse ni !! (m - S b)%nat = Some q).
  { rewrite reverse_lookup by (fold m; lia). fold m.
    replace (m - S (m - S b))%nat with b by lia. exact Hb. }
  assert (Hread : take_at xs (reverse ni) = Some (reverse nn))
    by apply take_at_reverse, take_at_compress.
  assert (Hxa : reverse nn !! (m - S a)%nat = Some x)
    by (rewrite (take_at_lookup _ _ _ _ _ Hread Hra); exact Hp).
  assert (Hyb : reverse nn !! (m - S b)%nat = Some y)
    by (rewrite (take_at_lookup _ _ _ _ _ Hread Hrb); exact Hq).
  destruct (argsort_stable (reverse nn) (m - S b) (m - S a) y x)
    as (u & v & Huv & Hu & Hv); try assumption; [|lia|].
  { apply Forall_reverse. unfold nn. rewrite list_fmap_compose.
    apply compress_numbers. }
  pose proof (take_at_lookup _ _ _ _ _ Hix0 Hu) as Hqu. rewrite Hrb in Hqu.
  pose proof (take_at_lookup _ _ _ _ _ Hix0 Hv) as Hpv. rewrite Hra in Hpv.
  pose proof (lookup_lt_Some _ _ _ Hqu) as Hlu.
  pose proof (lookup_lt_Some _ _ _ Hpv) as Hlv.
  exists (length ix0 - S v)%nat, (length ix0 - S u)%nat.
  split; [lia|].
  rewrite !lookup_app_l by (rewrite length_reverse; lia).
  rewrite !reverse_lookup by lia.
  replace (length ix0 - S (length ix0 - S v))%nat with v by lia.
  replace (length ix0 - S (length ix0 - S u))%nat with u by lia.
  auto.
Qed.

End stable_sort.

(** What pandas' reversals do to ties: with a sort kind that is stable,
    two records of the subset with the same score stand in the ranking in
    the order they have in the subset. Line 117 asks for no such kind. *)
Theorem stable_kind_keeps_ties `{Library} `{!ArgsortSorts} `{!ArgsortStable} :
  ties_keep_input_order.
Proof.
  intros df p q rp rq Hpq Hp Hq Htied.
  destruct (sort_values_descending df) as (ranked & Hsort & _ & _).
  pose proof Hsort as Hsort'. unfold sort_values in Hsort'.
  destruct (nargsort (scores df) false) as [ix|] eqn:Hix; [|discriminate].
  cbn in Hsort'.
  destruct (nargsort_stable (scores df) p q (risk_score rp.2) (risk_score rq.2) ix)
    as (i & j & Hij & Hi & Hj); try assumption.
  { unfold scores. by rewrite list_lookup_fmap, Hp. }
  { unfold scores. by rewrite list_lookup_fmap, Hq. }
  assert (Hri : ranked !! i = Some rp)
    by (rewrite (take_at_lookup _ _ _ _ _ Hsort' Hi); exact Hp).
  assert (Hrj : ranked !! j = Some rq)
    by (rewrite (take_at_lookup _ _ _ _ _ Hsort' Hj); exact Hq).
  exists ranked, (head 10 ranked), i, j.
  unfold top_n. rewrite Hsort. repeat split; try assumption.
  - unfold head. rewrite lookup_take_lt by lia. exact Hri.
  - unfold head. by rewrite lookup_take_lt.
Qed.

Lemma stable_kind_keeps_ties_witness :
  exists (ranked top : DataFrame) (i j : nat),
    @sort_values Reference.stable tied_roads false = Some ranked /\
    @top_n Reference.stable tied_roads = Some top /\
    top = head 10 ranked /\
    (i < j)%nat /\
    ranked !! i = tied_roads !! 0%nat /\ ranked !! j = tied_roads !! 1%nat.
Proof.
  destruct (@stable_kind_keeps_ties Reference.stable ReferenceFacts.stable_sorts
              StableFacts.stable_stable tied_roads 0%nat 1%nat _ _
              (Nat.lt_0_succ 0) eq_refl eq_refl (conj eq_refl eq_refl))
    as (ranked & top & i & j & Hsort & Htop & Hhead & Hij & Hi & Hj & _).
  exists ranked, top, i, j.
  repeat split; [exact Hsort|exact Htop|exact Hhead|exact Hij|exact Hi|exact Hj].
Defined.

(** The contract of a sort leaves the order of ties open: an insertion
    sort that puts a key after the equal keys it meets is a sort in
    numpy's sense, and with it the ranking of two tied roads lists the
    second road first. What numpy's own quicksort does with ties depends on
    its implementation, which is not part of the repository. *)
Lemma sort_contract_leaves_ties_open :
  @ArgsortSorts Reference.backward /\
  @top_n Reference.backward tied_roads = Some (reverse tied_roads) /\
  ~ @ties_keep_input_order Reference.backward.
Proof.
  split; [exact ReferenceFacts.backward_sorts|]. split; [reflexivity|].
  intros Hkeep.
  destruct (Hkeep tied_roads 0%nat 1%nat _ _ (Nat.lt_0_succ 0) eq_refl eq_refl
              (conj eq_refl eq_refl))
    as (ranked & top & i & j & Hsort & _ & _ & Hij & Hi & Hj & _).
  vm_compute in Hsort. injection Hsort as <-.
  destruct i as [|[|i]], j as [|[|j]]; try lia; discriminate.
Qed.

(* ================================================================= *)
(** ** A city without rows *)

Lemma top_n_nil `{Library} `{!ArgsortSorts} : top_n [] = Some [].
Proof.
  destruct (sort_values_descending []) as (ranked & Hsort & Hperm & _).
  apply Permutation_nil_r in Hperm as ->.
  unfold top_n. by rewrite Hsort.
Qed.

Lemma drawn_shows (view : App unit) (s : Session) (r : exn + unit) (ws : list Widget) :
  view s = (r, shows s ws) -> drawn view s = ws.
Proof.
  intros Hv. unfold drawn. rewrite Hv. cbn. by rewrite drop_app_length.
Qed.

(** C3, as the code has it. When the selected city has no row, no view
    raises. The map and the trend chart are replaced by a line of text
    ("No data available for this city.", "Insufficient data to display
    risk trend."); the ranking and the three tabs are drawn as they always
    are, as tables, which then have no row. *)
Theorem empty_city_views `{Library} `{!ArgsortSorts} (s : Session) :
  city_data s = [] ->
  map_view s = (inr tt, shows s [Info "No data available for this city."]) /\
  table_view s =
    (inr tt, shows s [Subheader "Top Risky Roads";
                      Table ["Road"; "Risk (%)"; "Category"] []]) /\
  trend_view s =
    (inr tt, shows s [Subheader "High‑Risk Trend (Last 7 Days)";
                      Write "Insufficient data to display risk trend."]) /\
  tabs_view s =
    (inr tt, shows s [Subheader "Roads by Risk Category";
                      Tabs ["High Risk"; "Medium Risk"; "Low Risk"];
                      InTab "High Risk" (Write "High‑risk roads:");
                      InTab "High Risk" (Table ["Road"; "Score"] []);
                      InTab "Medium Risk" (Write "Medium‑risk roads:");
                      InTab "Medium Risk" (Table ["Road"; "Score"] []);
                      InTab "Low Risk" (Write "Low‑risk roads:");
                      InTab "Low Risk" (Table ["Road"; "Score"] [])]) /\
  reports_no_data map_view s /\
  reports_no_data trend_view s.
Proof.
  intros Hempty.
  assert (Hmap : map_view s = (inr tt, shows s [Info "No data available for this city."])).
  { destruct s as [d c cd pg]. cbn in Hempty. subst cd. reflexivity. }
  assert (Htrend : trend_view s =
            (inr tt, shows s [Subheader "High‑Risk Trend (Last 7 Days)";
                              Write "Insufficient data to display risk trend."])).
  { destruct s as [d c cd pg]. cbn in Hempty. subst cd.
    unfold trend_view, shows, mbind, app_bind, emit, gets, modify. cbn.
    by rewrite <- app_assoc. }
  split; [exact Hmap|]. split; [|split; [exact Htrend|split; [|split]]].
  - destruct s as [d c cd pg]. cbn in Hempty. subst cd.
    unfold table_view, shows, mbind, app_bind, emit, gets, modify, from_option. cbn.
    rewrite top_n_nil. cbn. by rewrite <- app_assoc.
  - destruct s as [d c cd pg]. cbn in Hempty. subst cd.
    unfold tabs_view, shows, mbind, app_bind, emit, gets, modify. cbn.
    by rewrite <- !app_assoc.
  - unfold reports_no_data. rewrite (drawn_shows _ _ _ _ Hmap), Hmap. auto.
  - unfold reports_no_data. rewrite (drawn_shows _ _ _ _ Htrend), Htrend. auto.
Qed.

Lemma empty_city_views_witness :
  city_data start = [] /\
  @table_view Reference.stable start =
    (inr tt, shows start [Subheader "Top Risky Roads";
                          Table ["Road"; "Risk (%)"; "Category"] []]).
Proof.
  split; [reflexivity|].
  exact (proj1 (proj2 (@empty_city_views Reference.stable ReferenceFacts.stable_sorts
                         start eq_refl))).
Defined.

(** C3, as stated, fails: on a session whose city has no row, the view of
    the ranking ends with no line of text for the visitor and with a table
    that has no row. *)
Lemma empty_city_counterexample :
  city_data start = [] /\
  drawn (@table_view Reference.stable) start =
    [Subheader "Top Risky Roads"; Table ["Road"; "Risk (%)"; "Category"] []] /\
  ~ reports_no_data (@table_view Reference.stable) start.
Proof.
  split; [reflexivity|]. split; [reflexivity|].
  intros (_ & Hnotice & _). vm_compute in Hnotice. discriminate.
Qed.

(* ================================================================= *)
(** ** The scenarios of the specification, run on the model *)

(** Scenario A: Mall Road, score 0.75, is "High" and shows as "75.0%". *)
Example scenario_mall_road :
  categorize_risk 0.75%float = "High" /\
  format_percentage (0.75 * 100)%float = "75.0%".
Proof. split; reflexivity. Qed.

(** Scenario B: the score "abc" loads as not-a-number and is "Low". *)
Example scenario_unparseable :
  (fun ir => (road_name ir.2, F64.isna (risk_score ir.2), risk_category ir.2))
    <$> @load_data Reference.stable sample_csv !! 1%nat
  = Some ("Canal Road", true, "Low").
Proof. reflexivity. Qed.

(** Scenario C: the page for a city without rows. *)
Example scenario_empty_city :
  page (@main Reference.stable sample_csv (Some "Quetta") start).2 =
    [PageConfig "Traffic & Road Safety Dashboard" "wide";
     Title "Traffic & Road Safety Dashboard";
     Selectbox "Select City" ["Karachi"; "Lahore"];
     Info "No data available for this city.";
     Subheader "Top Risky Roads";
     Table ["Road"; "Risk (%)"; "Category"] [];
     Subheader "High‑Risk Trend (Last 7 Days)";
     Write "Insufficient data to display risk trend.";
     Subheader "Roads by Risk Category";
     Tabs ["High Risk"; "Medium Risk"; "Low Risk"];
     InTab "High Risk" (Write "High‑risk roads:");
     InTab "High Risk" (Table ["Road"; "Score"] []);
     InTab "Medium Risk" (Write "Medium‑risk roads:");
     InTab "Medium Risk" (Table ["Road"; "Score"] []);
     InTab "Low Risk" (Write "Low‑risk roads:");
     InTab "Low Risk" (Table ["Road"; "Score"] [])].
Proof. vm_compute. reflexivity. Qed.

(** Scenario D: the ranking of Lahore, whose two roads at 0.5 are both
    "Medium"; their order is the one the sort kind gives. *)
Example scenario_ties_stable :
  drawn (@table_view Reference.stable)
    (@main Reference.stable sample_csv (Some "Lahore") start).2 =
    [Subheader "Top Risky Roads";
     Table ["Road"; "Risk (%)"; "Category"]
       [(0%nat, [CStr "Mall Road"; CStr "75.0%"; CStr "High"]);
        (3%nat, [CStr "Jail Road"; CStr "50.0%"; CStr "Medium"]);
        (4%nat, [CStr "Ferozepur Road"; CStr "50.0%"; CStr "Medium"]);
        (1%nat, [CStr "Canal Road"; CStr "nan%"; CStr "Low"])]].
Proof. vm_compute. reflexivity. Qed.

(** The same ranking with an argsort that returns ties backward, which
    the contract of a sort allows: the two roads at 0.5 swap. *)
Example scenario_ties_backward :
  drawn (@table_view Reference.backward)
    (@main Reference.backward sample_csv (Some "Lahore") start).2 =
    [Subheader "Top Risky Roads";
     Table ["Road"; "Risk (%)"; "Category"]
       [(0%nat, [CStr "Mall Road"; CStr "75.0%"; CStr "High"]);
        (4%nat, [CStr "Ferozepur Road"; CStr "50.0%"; CStr "Medium"]);
        (3%nat, [CStr "Jail Road"; CStr "50.0%"; CStr "Medium"]);
        (1%nat, [CStr "Canal Road"; CStr "nan%"; CStr "Low"])]].
Proof. vm_compute. reflexivity. Qed.

(** Values of [format] and [round] as the interpreter prints them. *)
Example format_f_values :
  Py.format_f 2 0.125%float = "0.12" /\
  Py.format_f 2 0.375%float = "0.38" /\
  Py.format_f 1 (-0.04)%float = "-0.0" /\
  Py.format_f 0 2.5%float = "2" /\
  Py.format_f 3 (-1234.5678)%float = "-1234.568" /\
  Py.format_f 2 PrimFloat.nan = "nan".
Proof. repeat split; reflexivity. Qed.

Example round_values :
  Py.round 2.5%float = inr 2 /\ Py.round 3.5%float = inr 4 /\
  Py.round (-0.5)%float = inr 0 /\ Py.round 5.83%float = inr 6 /\
  Py.round PrimFloat.nan = inl ValueError /\
  Py.round PrimFloat.infinity = inl OverflowError.
Proof. repeat split; reflexivity. Qed.

(* ================================================================= *)
(** ** The steps of the views *)

Lemma city_data_shows (s : Session) (ws : list Widget) :
  city_data (shows s ws) = city_data s.
Proof. reflexivity. Qed.

Lemma shows_shows (s : Session) (ws1 ws2 : list Widget) :
  shows (shows s ws1) ws2 = shows s (ws1 ++ ws2).
Proof. unfold shows. cbn. by rewrite <- app_assoc. Qed.

Lemma bind_ok {A B : Type} (m : App A) (k : A -> App B) (s s' : Session) (a : A) :
  m s = (inr a, s') -> (m ≫= k) s = k a s'.
Proof. unfold mbind, app_bind. by intros ->. Qed.

Lemma bind_raise {A B : Type} (m : App A) (k : A -> App B) (s s' : Session) (e : exn) :
  m s = (inl e, s') -> (m ≫= k) s = (inl e, s').
Proof. unfold mbind, app_bind. by intros ->. Qed.

Lemma validate_location_run (location : float * float) (s : Session) :
  validate_location location s =
    if F64.isna location.1 || F64.isna location.2 then (inl ValueError, s)
    else (inr tt, s).
Proof. unfold validate_location. by destruct (_ || _). Qed.

Section view_steps.
Context `{Library}.

(** [main] up to line 89 sets the session; the four views follow. *)
Lemma main_steps (csv : list RawRow) (choice : option string) :
  main csv choice start = views (at_views csv choice).
Proof. reflexivity. Qed.

(** The loop of lines 100-109 stops at the first row folium refuses. *)
Lemma validate_rows (df : DataFrame) (s : Session) :
  mapM (fun ir : nat * RoadRecord => validate_location (latitude ir.2, longitude ir.2)) df s =
    if existsb (fun ir => F64.isna (latitude ir.2) || F64.isna (longitude ir.2)) df
    then (inl ValueError, s)
    else (inr ((fun _ => tt) <$> df), s).
Proof.
  induction df as [|ir df IH]; [reflexivity|].
  cbn [mapM existsb].
  pose proof (validate_location_run (latitude ir.2, longitude ir.2) s) as Hv.
  cbn [fst snd] in Hv.
  destruct (F64.isna (latitude ir.2) || F64.isna (longitude ir.2)).
  - by rewrite (bind_raise _ _ _ _ _ Hv).
  - rewrite (bind_ok _ _ _ _ _ Hv). cbn [orb].
    destruct (existsb _ df).
    + by rewrite (bind_raise _ _ _ _ _ IH).
    + by rewrite (bind_ok _ _ _ _ _ IH).
Qed.

Lemma map_view_empty (s : Session) :
  city_data s = [] ->
  map_view s = (inr tt, shows s [Info "No data available for this city."]).
Proof. destruct s as [d c cd pg]. cbn. by intros ->. Qed.

Lemma map_view_rows (s : Session) :
  city_data s <> [] ->
  map_view s =
    if unplottable (city_data s) then (inl ValueError, s)
    else (inr tt, shows s (map_widgets (selected_city s) (city_data s))).
Proof.
  destruct s as [d c [|ir cd] pg]; [done|]. intros _.
  set (df := ir :: cd). set (s := {| data := d; selected_city := c; city_data := df; page := pg |}).
  unfold map_view, unplottable.
  rewrite (bind_ok (gets city_data) _ s s df) by reflexivity.
  rewrite (bind_ok (gets selected_city) _ s s c) by reflexivity.
  cbn [city_data selected_city s]. unfold df at 1. cbn [empty negb]. fold df.
  pose proof (validate_location_run
                (mean ((fun ir0 => latitude ir0.2) <$> df),
                 mean ((fun ir0 => longitude ir0.2) <$> df)) s) as Hc.
  cbn [fst snd] in Hc.
  destruct (F64.isna (mean ((fun ir0 => latitude ir0.2) <$> df))
            || F64.isna (mean ((fun ir0 => longitude ir0.2) <$> df))).
  - by rewrite (bind_raise _ _ _ _ _ Hc).
  - rewrite (bind_ok _ _ _ _ _ Hc). cbn [orb].
    pose proof (validate_rows df s) as Hr.
    destruct (existsb _ df).
    + by rewrite (bind_raise _ _ _ _ _ Hr).
    + rewrite (bind_ok _ _ _ _ _ Hr).
      unfold shows, map_widgets, mbind, app_bind, emit, modify. cbn.
      by rewrite <- app_assoc.
Qed.

Lemma table_view_top (s : Session) (top : DataFrame) :
  top_n (city_data s) = Some top ->
  table_view s = (inr tt, shows s (table_widgets top)).
Proof.
  destruct s as [d c cd pg]. cbn. intros Htop.
  unfold table_view, shows, table_widgets, mbind, app_bind, emit, gets, modify, from_option.
  cbn. rewrite Htop. cbn. by rewrite <- app_assoc.
Qed.

Lemma trend_view_empty (s : Session) :
  city_data s = [] ->
  trend_view s =
    (inr tt, shows s [Subheader "High‑Risk Trend (Last 7 Days)";
                      Write "Insufficient data to display risk trend."]).
Proof.
  destruct s as [d c cd pg]. cbn. intros ->.
  unfold trend_view, shows, mbind, app_bind, emit, gets, modify. cbn.
  by rewrite <- app_assoc.
Qed.

Lemma trend_view_rows (s : Session) :
  city_data s <> [] ->
  trend_view s =
    match trend_rate (city_data s) with
    | inr base =>
        (inr tt, shows s [Subheader "High‑Risk Trend (Last 7 Days)";
                          Pyplot ("High‑Risk Trend in " +:+ Py.str (selected_city s)) base 7])
    | inl e => (inl e, shows s [Subheader "High‑Risk Trend (Last 7 Days)"])
    end.
Proof.
  destruct s as [d c [|ir cd] pg]; [done|]. intros _.
  unfold trend_view, trend_rate, check_poisson_rate, shows,
    mbind, app_bind, emit, gets, modify, from_sum.
  cbn -[F64.le F64.of_Z Z.max Py.round mean scores app Py.str].
  destruct (Py.round _) as [e|n]; [reflexivity|].
  cbn -[F64.le F64.of_Z Z.max Py.round mean scores app Py.str].
  destruct (F64.le _ _); [|reflexivity].
  cbn -[F64.le F64.of_Z Z.max Py.round mean scores app Py.str].
  by rewrite <- app_assoc.
Qed.

Lemma tabs_view_page (s : Session) :
  tabs_view s = (inr tt, shows s (tab_widgets (city_data s))).
Proof.
  destruct s as [d c cd pg].
  unfold tabs_view, shows, tab_widgets, mbind, app_bind, emit, gets, modify. cbn.
  by rewrite <- !app_assoc.
Qed.

End view_steps.

Section ranking_facts.
Context `{Library} `{!ArgsortSorts}.

(** The ranking is the first ten rows of the sorted frame. *)
Lemma top_n_descending (df : DataFrame) :
  exists ranked : DataFrame,
    top_n df = Some (head 10 ranked) /\
    ranked ≡ₚ df /\
    StronglySorted ranks_before (scores ranked).
Proof.
  destruct (sort_values_descending df) as (ranked & Hsort & Hperm & Hsorted).
  exists ranked. unfold top_n. by rewrite Hsort.
Qed.

End ranking_facts.

Lemma trend_rate_positive `{Library} (df : DataFrame) (base : Z) :
  trend_rate df = inr base -> (1 <= base)%Z.
Proof.
  unfold trend_rate. destruct (Py.round _) as [e|n]; [discriminate|].
  destruct (F64.le _ _); [|discriminate]. intros [= <-]. lia.
Qed.

Section views_run.
Context `{Library} `{!ArgsortSorts}.

(** The four views in a row, by cases: the city has no row; its rows
    cannot be put on a map; the rate of the chart cannot be computed or
    drawn from; everything is drawn. *)
Lemma views_run (s : Session) :
  exists top : DataFrame,
    top_n (city_data s) = Some top /\
    views s =
      match city_data s with
      | [] =>
          (inr tt,
           shows s
             ([Info "No data available for this city."] ++ table_widgets top ++
              [Subheader "High‑Risk Trend (Last 7 Days)";
               Write "Insufficient data to display risk trend."] ++
              tab_widgets []))
      | _ :: _ =>
          if unplottable (city_data s) then (inl ValueError, s)
          else
            match trend_rate (city_data s) with
            | inr base =>
                (inr tt,
                 shows s
                   (map_widgets (selected_city s) (city_data s) ++ table_widgets top ++
                    [Subheader "High‑Risk Trend (Last 7 Days)";
                     Pyplot ("High‑Risk Trend in " +:+ Py.str (selected_city s)) base 7] ++
                    tab_widgets (city_data s)))
            | inl e =>
                (inl e,
                 shows s
                   (map_widgets (selected_city s) (city_data s) ++ table_widgets top ++
                    [Subheader "High‑Risk Trend (Last 7 Days)"]))
            end
      end.
Proof.
  destruct (top_n_descending (city_data s)) as (ranked & Htop & _ & _).
  exists (head 10 ranked). split; [exact Htop|].
  unfold views.
  destruct (city_data s) as [|ir cd] eqn:E.
  - rewrite (bind_ok _ _ _ _ _ (map_view_empty s E)).
    erewrite bind_ok by (apply table_view_top; rewrite city_data_shows, E; exact Htop).
    erewrite bind_ok by (apply trend_view_empty; rewrite !city_data_shows; exact E).
    rewrite tabs_view_page, !city_data_shows, E.
    by rewrite !shows_shows.
  - assert (Hne : city_data s <> []) by (rewrite E; discriminate).
    pose proof (map_view_rows s Hne) as Hmap. rewrite E in Hmap.
    destruct (unplottable (ir :: cd)).
    + by rewrite (bind_raise _ _ _ _ _ Hmap).
    + rewrite (bind_ok _ _ _ _ _ Hmap).
      erewrite bind_ok by (apply table_view_top; rewrite city_data_shows, E; exact Htop).
      pose proof (trend_view_rows
                    (shows (shows s (map_widgets (selected_city s) (ir :: cd)))
                       (table_widgets (head 10 ranked)))) as Htrend.
      rewrite !city_data_shows, E in Htrend.
      specialize (Htrend ltac:(discriminate)).
      change (selected_city (shows _ _)) with (selected_city s) in Htrend.
      destruct (trend_rate (ir :: cd)) as [e|base].
      * rewrite (bind_raise _ _ _ _ _ Htrend). by rewrite !shows_shows.
      * rewrite (bind_ok _ _ _ _ _ Htrend), tabs_view_page.
        rewrite !city_data_shows, E. by rewrite !shows_shows.
Qed.

End views_run.

(* ================================================================= *)
(** ** The percentage of the ranking *)

Lemma top_n_all `{Library} `{!ArgsortSorts} (df top : DataFrame) :
  top_n df = Some top -> (length df <= 10)%nat -> top ≡ₚ df.
Proof.
  intros Htop Hlen.
  destruct (top_n_descending df) as (ranked & Hranked & Hperm & _).
  assert (Heq : top = head 10 ranked) by congruence. subst top.
  unfold head. rewrite take_ge; [exact Hperm|]. by rewrite Hperm.
Qed.

(** C9. A row of the city with the score 0.734 (lines 117-123). The
    table of the ranking has one line per row of the ranking, under the
    label of that row, whose "Risk (%)" cell is the text of the score
    times 100 with one decimal and a percent sign; the row of score 0.734,
    which is in the ranking whenever the city has at most ten rows, reads
    "73.4%" there. The percentage is a column of the copy the table is
    drawn from only: the frames [data] and [city_data] are the same after
    the view, and the tab drawn afterwards from [city_data] lists the row
    with its score, 0.734, and no percentage. *)
Theorem risk_percentage_display `{Library} `{!ArgsortSorts}
    (s : Session) (i : nat) (r : RoadRecord) :
  (i, r) ∈ city_data s ->
  risk_score r = 0.734%float ->
  exists (top : DataFrame) (rows : Frame (list cell)),
    top_n (city_data s) = Some top /\
    ((length (city_data s) <= 10)%nat -> (i, r) ∈ top) /\
    table_view s =
      (inr tt, shows s [Subheader "Top Risky Roads";
                        Table ["Road"; "Risk (%)"; "Category"] rows]) /\
    Forall2
      (fun (ir : nat * RoadRecord) (row : nat * list cell) =>
         row.1 = ir.1 /\
         exists road : cell,
           row.2 = [road;
                    CStr (Py.format_f 1 (risk_score ir.2 * 100)%float +:+ "%");
                    CStr (risk_category ir.2)])
      top rows /\
    ((i, r) ∈ top ->
       exists road : cell, (i, [road; CStr "73.4%"; CStr (risk_category r)]) ∈ rows) /\
    data (table_view s).2 = data s /\
    city_data (table_view s).2 = city_data s /\
    (risk_category r = "High" ->
       exists (scored : Frame (list cell)) (road : cell),
         InTab "High Risk" (Table ["Road"; "Score"] scored)
           ∈ drawn tabs_view (table_view s).2 /\
         (i, [road; CFloat 0.734%float]) ∈ scored).
Proof.
  intros Hrow Hscore.
  destruct (top_n_descending (city_data s)) as (ranked & Htop & Hperm & _).
  set (line := fun ir : nat * RoadRecord =>
                 (ir.1, [CStr (road_name ir.2);
                         CStr (format_percentage (risk_score ir.2 * 100)%float);
                         CStr (risk_category ir.2)])).
  assert (Hview : table_view s =
            (inr tt, shows s [Subheader "Top Risky Roads";
                              Table ["Road"; "Risk (%)"; "Category"]
                                (line <$> head 10 ranked)])).
  { rewrite (table_view_top s _ Htop). unfold table_widgets, top_display.
    by rewrite <- list_fmap_compose. }
  exists (head 10 ranked), (line <$> head 10 ranked).
  split; [exact Htop|]. split; [|split; [exact Hview|]].
  { intros Hlen. by rewrite (top_n_all _ _ Htop Hlen). }
  split; [|split; [|split; [|split]]].
  - apply Forall2_fmap_r, Forall_Forall2_diag, Forall_forall.
    intros ir _. split; [reflexivity|]. by exists (CStr (road_name ir.2)).
  - intros Hin. exists (CStr (road_name r)).
    apply list_elem_of_fmap. exists (i, r). split; [|exact Hin].
    unfold line. cbn [fst snd]. by rewrite Hscore.
  - by rewrite Hview.
  - by rewrite Hview.
  - intros Hcat. rewrite Hview. cbn [snd].
    rewrite (drawn_shows _ _ _ _ (tabs_view_page _)), city_data_shows.
    exists ((fun ir : nat * RoadRecord =>
               (ir.1, [CStr (road_name ir.2); CFloat (risk_score ir.2)]))
              <$> filter_by_category (city_data s) "High"),
           (CStr (road_name r)).
    split.
    + unfold tab_widgets, score_table. rewrite !elem_of_cons. auto.
    + apply list_elem_of_fmap. exists (i, r). split.
      * cbn [fst snd]. by rewrite Hscore.
      * by apply filter_by_category_elem.
Qed.

Lemma risk_percentage_display_witness :
  exists (rows : Frame (list cell)) (road : cell),
    @table_view Reference.stable karachi_session =
      (inr tt, shows karachi_session
                 [Subheader "Top Risky Roads";
                  Table ["Road"; "Risk (%)"; "Category"] rows]) /\
    (2%nat, [road; CStr "73.4%"; CStr "High"]) ∈ rows.
Proof.
  assert (Hcd : city_data karachi_session =
                  [(2%nat, @load_row Reference.stable karachi_line)]) by reflexivity.
  assert (Hin : (2%nat, @load_row Reference.stable karachi_line)
                  ∈ city_data karachi_session) by (rewrite Hcd; left).
  destruct (@risk_percentage_display Reference.stable ReferenceFacts.stable_sorts
              karachi_session 2%nat (@load_row Reference.stable karachi_line) Hin eq_refl)
    as (top & rows & _ & Hall & Hview & _ & Hrow & _).
  assert (Hlen : (length (city_data karachi_session) <= 10)%nat)
    by (rewrite Hcd; cbn [length]; lia).
  destruct (Hrow (Hall Hlen)) as [road Hroad].
  exists rows, road. split; [exact Hview|exact Hroad].
Defined.

(* ================================================================= *)
(** ** From the lines of the file to the rows of a city *)

Section lines_facts.
Context `{Library}.

Lemma filter_by_city_rows (csv : list RawRow) (choice : option string) (ir : nat * RoadRecord) :
  ir ∈ filter_by_city (load_data csv) choice ->
  exists raw, csv !! ir.1 = Some raw /\ ir.2 = load_row raw /\ Some (raw_city raw) = choice.
Proof.
  intros Hin. apply filter_by_city_elem in Hin as [Hc Hin].
  apply elem_of_lookup_imap_1 in Hin as (i & raw & -> & Hi).
  exists raw. auto.
Qed.

Lemma filter_by_city_labels (csv : list RawRow) (choice : option string) :
  NoDup (filter_by_city (load_data csv) choice).*1.
Proof.
  pose proof (NoDup_seq 0 (length csv)) as Hnd.
  rewrite <- load_data_labels in Hnd.
  unfold filter_by_city. induction (load_data csv) as [|ir l IH]; [constructor|].
  cbn in Hnd. apply NoDup_cons in Hnd as [Hir Hnd].
  rewrite filter_cons. case_decide; [|by apply IH].
  cbn. constructor; [|by apply IH].
  intros Hin. apply Hir.
  apply list_elem_of_fmap in Hin as (ir' & -> & Hin).
  apply list_elem_of_filter in Hin as [_ Hin]. by apply list_elem_of_fmap_2.
Qed.

End lines_facts.

(* ================================================================= *)
(** ** What the ranking lists *)

Lemma StronglySorted_fmap_inv {A B : Type} (f : A -> B) (R : relation B) (l : list A) :
  StronglySorted R (f <$> l) -> StronglySorted (fun a b => R (f a) (f b)) l.
Proof.
  induction l as [|x l IH]; intros Hl; [constructor|].
  rewrite fmap_cons in Hl.
  apply StronglySorted_cons in Hl as [Hx Hl]. constructor; [by apply IH|].
  rewrite Forall_fmap in Hx. exact Hx.
Qed.

Lemma StronglySorted_mono_elem {A : Type} (R R' : relation A) (l : list A) :
  (forall x y, x ∈ l -> y ∈ l -> R x y -> R' x y) ->
  StronglySorted R l -> StronglySorted R' l.
Proof.
  intros HR Hl. apply StronglySorted_lookup. intros i j x y Hi Hj Hij.
  apply (HR x y); [by eapply list_elem_of_lookup_2..|].
  rewrite StronglySorted_lookup in Hl. by eapply Hl.
Qed.

(** X4. The ranking of a city lists rows of that city only, each under
    the label of its line in the file, and no row twice. *)
Theorem ranking_rows_of_city `{Library} `{!ArgsortSorts}
    (csv : list RawRow) (choice : option string) :
  exists top : DataFrame,
    top_n (filter_by_city (load_data csv) choice) = Some top /\
    NoDup top.*1 /\
    forall ir : nat * RoadRecord, ir ∈ top ->
      exists raw : RawRow,
        csv !! ir.1 = Some raw /\ ir.2 = load_row raw /\ Some (raw_city raw) = choice.
Proof.
  destruct (top_n_descending (filter_by_city (load_data csv) choice))
    as (ranked & Htop & Hperm & _).
  exists (head 10 ranked). split; [exact Htop|]. split.
  - pose proof (filter_by_city_labels csv choice) as Hnd.
    rewrite <- Hperm, <- (take_drop 10 ranked), fmap_app in Hnd.
    by apply NoDup_app in Hnd as [Hnd _].
  - intros ir Hin. apply (filter_by_city_rows csv choice).
    rewrite <- Hperm. eapply sublist_subseteq; [apply sublist_take|exact Hin].
Qed.

Lemma ranking_rows_of_city_witness :
  exists top : DataFrame,
    @top_n Reference.stable
      (filter_by_city (@load_data Reference.stable sample_csv) (Some "Lahore")) = Some top /\
    NoDup top.*1.
Proof.
  destruct (@ranking_rows_of_city Reference.stable ReferenceFacts.stable_sorts
              sample_csv (Some "Lahore")) as (top & Htop & Hnd & _).
  exists top. split; [exact Htop|exact Hnd].
Defined.

(** X5. The ranking keeps the riskiest roads: the rows of the subset are
    those of the ranking and those left out, a subset of at most ten rows
    leaves none out, and a row left out either has no score or a score
    that no row of the ranking is below. *)
Theorem ranking_keeps_the_riskiest `{Library} `{!ArgsortSorts} (city_data : DataFrame) :
  exists top rest : DataFrame,
    top_n city_data = Some top /\
    top ++ rest ≡ₚ city_data /\
    ((length city_data <= 10)%nat -> rest = []) /\
    forall x y : nat * RoadRecord, x ∈ top -> y ∈ rest ->
      F64.isna (risk_score y.2) = true \/
      F64.ge (risk_score x.2) (risk_score y.2) = true.
Proof.
  destruct (top_n_descending city_data) as (ranked & Htop & Hperm & Hsorted).
  exists (head 10 ranked), (drop 10 ranked). unfold head in *.
  split; [exact Htop|]. split; [by rewrite take_drop|]. split.
  - intros Hlen. apply drop_ge. rewrite Hperm. exact Hlen.
  - intros x y Hx Hy.
    rewrite <- (take_drop 10 ranked) in Hsorted. unfold scores in Hsorted.
    rewrite fmap_app in Hsorted.
    apply (StronglySorted_app_1_elem_of _ _ _ _ _ Hsorted);
      by apply (list_elem_of_fmap_2 (fun ir : nat * RoadRecord => risk_score ir.2)).
Qed.

Lemma ranking_keeps_the_riskiest_witness :
  exists top rest : DataFrame,
    @top_n Reference.stable tied_roads = Some top /\
    top ++ rest ≡ₚ tied_roads /\ rest = [].
Proof.
  destruct (@ranking_keeps_the_riskiest Reference.stable ReferenceFacts.stable_sorts
              tied_roads) as (top & rest & Htop & Hperm & Hrest & _).
  exists top, rest. split; [exact Htop|]. split; [exact Hperm|].
  apply Hrest. cbn. lia.
Defined.

Lemma category_rank_ge (x y : float) :
  F64.ge x y = true ->
  (category_rank (categorize_risk y) <= category_rank (categorize_risk x))%nat.
Proof.
  intros Hxy. unfold categorize_risk.
  assert (Hup : forall t : float, F64.ge y t = true -> F64.ge x t = true).
  { intros t Hy. unfold F64.ge in *. change PrimFloat.leb with F64.le in *.
    by eapply F64Facts.le_trans. }
  destruct (F64.ge y 0.6%float) eqn:E6.
  - by rewrite (Hup _ E6).
  - destruct (F64.ge y 0.3%float) eqn:E3.
    + rewrite (Hup _ E3). destruct (F64.ge x 0.6%float); cbn; lia.
    + cbn. lia.
Qed.

(** X6. The classification is monotone: a score at least as high as
    another never gets a less severe category; in particular a score that
    is "High" stays "High" when it grows, and a score that is "Low" stays
    "Low" when it shrinks. *)
Theorem categorize_risk_monotone (x y : float) :
  F64.ge x y = true ->
  (category_rank (categorize_risk y) <= category_rank (categorize_risk x))%nat /\
  (categorize_risk y = "High" -> categorize_risk x = "High") /\
  (categorize_risk x = "Low" -> categorize_risk y = "Low").
Proof.
  intros Hxy. pose proof (category_rank_ge x y Hxy) as Hrank.
  split; [exact Hrank|].
  destruct (categorize_risk_cases x) as [Hx | [Hx | Hx]],
           (categorize_risk_cases y) as [Hy | [Hy | Hy]];
    rewrite Hx, Hy in *; cbn in Hrank; split; intros; (done || lia).
Qed.

Lemma categorize_risk_monotone_witness :
  F64.ge 0.61%float 0.59%float = true /\
  (category_rank (categorize_risk 0.59%float) <= category_rank (categorize_risk 0.61%float))%nat.
Proof.
  split; [reflexivity|].
  exact (proj1 (categorize_risk_monotone 0.61%float 0.59%float eq_refl)).
Defined.

(** X7. Down the ranking of a city the categories never get more severe:
    the "High" rows come first, then the "Medium" rows, then the "Low"
    rows, those without a score among them. *)
Theorem ranking_categories_descend `{Library} `{!ArgsortSorts}
    (csv : list RawRow) (choice : option string) :
  exists top : DataFrame,
    top_n (filter_by_city (load_data csv) choice) = Some top /\
    StronglySorted (fun a b => (category_rank b <= category_rank a)%nat)
      ((fun ir => risk_category ir.2) <$> top).
Proof.
  destruct (top_n_descending (filter_by_city (load_data csv) choice))
    as (ranked & Htop & Hperm & Hsorted).
  exists (head 10 ranked). split; [exact Htop|].
  apply StronglySorted_fmap_inv in Hsorted.
  apply (StronglySorted_take _ 10) in Hsorted. unfold head.
  apply (StronglySorted_fmap _
           (fun a b : nat * RoadRecord =>
              (category_rank (risk_category b.2) <= category_rank (risk_category a.2))%nat));
    [auto|].
  eapply StronglySorted_mono_elem; [|exact Hsorted].
  intros a b Ha Hb Hab. cbn in Hab.
  assert (Hcat : forall ir : nat * RoadRecord, ir ∈ take 10 ranked ->
            risk_category ir.2 = categorize_risk (risk_score ir.2)).
  { intros ir Hin.
    assert (Hcd : ir ∈ filter_by_city (load_data csv) choice).
    { rewrite <- Hperm. eapply sublist_subseteq; [apply sublist_take|exact Hin]. }
    apply filter_by_city_elem in Hcd as [_ Hcd].
    pose proof (load_data_categories csv) as Hall.
    rewrite Forall_forall in Hall. by apply Hall. }
  rewrite (Hcat a Ha), (Hcat b Hb).
  destruct Hab as [Hnan | Hge].
  - rewrite (categorize_risk_nan _ Hnan). cbn. lia.
  - by apply category_rank_ge.
Qed.

Lemma ranking_categories_descend_witness :
  exists top : DataFrame,
    @top_n Reference.stable
      (filter_by_city (@load_data Reference.stable sample_csv) (Some "Lahore")) = Some top /\
    StronglySorted (fun a b => (category_rank b <= category_rank a)%nat)
      ((fun ir => risk_category ir.2) <$> top).
Proof.
  exact (@ranking_categories_descend Reference.stable ReferenceFacts.stable_sorts
           sample_csv (Some "Lahore")).
Defined.

(* ================================================================= *)
(** ** What the tabs list, and how a missing score shows *)

Lemma lt_nan_l (x y : float) : F64.isna x = true -> F64.lt x y = false.
Proof.
  intros Hx. destruct (F64.lt x y) eqn:E; [|reflexivity].
  apply F64Facts.lt_le, F64Facts.le_number in E as [Hn _].
  unfold F64.number in Hn. congruence.
Qed.

(** The three categories over all floats, not-a-number included. *)
Lemma categorize_risk_all (s : float) :
  (categorize_risk s = "High" <-> F64.ge s 0.6%float = true) /\
  (categorize_risk s = "Medium" <->
     F64.ge s 0.3%float = true /\ F64.lt s 0.6%float = true) /\
  (categorize_risk s = "Low" <-> F64.lt s 0.3%float = true \/ F64.isna s = true).
Proof.
  destruct (F64.isna s) eqn:Hs.
  - rewrite (categorize_risk_nan s Hs), !(lt_nan_l s) by exact Hs.
    unfold F64.ge. change PrimFloat.leb with F64.le.
    rewrite !F64Facts.le_nan_r by exact Hs. intuition congruence.
  - assert (H6 : F64.number 0.6%float) by reflexivity.
    assert (H3 : F64.number 0.3%float) by reflexivity.
    rewrite !(F64Facts.lt_not_ge s) by assumption.
    assert (Hmono : F64.ge s 0.6%float = true -> F64.ge s 0.3%float = true).
    { unfold F64.ge. apply F64Facts.le_trans. reflexivity. }
    unfold categorize_risk.
    destruct (F64.ge s 0.6%float) eqn:E6.
    + rewrite (Hmono eq_refl). cbn. intuition congruence.
    + destruct (F64.ge s 0.3%float) eqn:E3; cbn; intuition congruence.
Qed.

(** X8. The tabs of a city follow the thresholds: a row of the city is in
    the "High" tab exactly when its score is at least 0.6, in the "Medium"
    tab exactly when its score is at least 0.3 and below 0.6, and in the
    "Low" tab exactly when its score is below 0.3 or is not a number. *)
Theorem tabs_by_threshold `{Library}
    (csv : list RawRow) (choice : option string) (ir : nat * RoadRecord) :
  (ir ∈ filter_by_category (filter_by_city (load_data csv) choice) "High" <->
     ir ∈ filter_by_city (load_data csv) choice /\
     F64.ge (risk_score ir.2) 0.6%float = true) /\
  (ir ∈ filter_by_category (filter_by_city (load_data csv) choice) "Medium" <->
     ir ∈ filter_by_city (load_data csv) choice /\
     F64.ge (risk_score ir.2) 0.3%float = true /\ F64.lt (risk_score ir.2) 0.6%float = true) /\
  (ir ∈ filter_by_category (filter_by_city (load_data csv) choice) "Low" <->
     ir ∈ filter_by_city (load_data csv) choice /\
     (F64.lt (risk_score ir.2) 0.3%float = true \/ F64.isna (risk_score ir.2) = true)).
Proof.
  rewrite !filter_by_category_elem.
  assert (Hcat : ir ∈ filter_by_city (load_data csv) choice ->
            risk_category ir.2 = categorize_risk (risk_score ir.2)).
  { intros Hin. apply filter_by_city_elem in Hin as [_ Hin].
    pose proof (load_data_categories csv) as Hall.
    rewrite Forall_forall in Hall. by apply Hall. }
  destruct (categorize_risk_all (risk_score ir.2)) as (Hh & Hm & Hl).
  assert (Hiff : forall (c : string) (P : Prop),
            (categorize_risk (risk_score ir.2) = c <-> P) ->
            (risk_category ir.2 = c /\ ir ∈ filter_by_city (load_data csv) choice <->
             ir ∈ filter_by_city (load_data csv) choice /\ P)).
  { intros c P HP. split.
    - intros [Hc Hin]. split; [exact Hin|]. apply HP. by rewrite <- Hcat.
    - intros [Hin HPc]. split; [|exact Hin]. rewrite Hcat by exact Hin. by apply HP. }
  split; [apply Hiff, Hh|]. split; [apply Hiff, Hm|apply Hiff, Hl].
Qed.


(* ================================================================= *)
(** ** The map of a city *)

Lemma isna_eq_nan (x : float) : F64.isna x = true -> x = PrimFloat.nan.
Proof.
  intros Hx. apply F64Facts.isna_spec in Hx.
  by rewrite <- (SF2Prim_Prim2SF x), Hx.
Qed.

(** X3. For a city that has rows, the map view either stops on the
    ValueError folium raises for a coordinate that is not a number (the
    mean latitude or longitude, or a coordinate of a row), with nothing
    of the map on the page; or it draws its heading and one map, centred
    on the mean latitude and longitude at zoom 12, with one circle marker
    per row of the city, in the order of the rows: each at the coordinates
    of its row, of radius 6, filled, in the colour of the category of its
    row. *)
Theorem map_one_marker_per_row `{Library} (s : Session) :
  city_data s <> [] ->
  (unplottable (city_data s) = true -> map_view s = (inl ValueError, s)) /\
  (unplottable (city_data s) = false ->
     exists markers : list Marker,
       map_view s =
         (inr tt,
          shows s
            [Subheader ("Accident Risk Map of " +:+ Py.str (selected_city s));
             FoliumMap
               (mean ((fun ir => latitude ir.2) <$> city_data s),
                mean ((fun ir => longitude ir.2) <$> city_data s))
               12 markers]) /\
       location <$> markers = (fun ir => (latitude ir.2, longitude ir.2)) <$> city_data s /\
       color <$> markers = (fun ir => marker_colour (risk_category ir.2)) <$> city_data s /\
       fill_color <$> markers = color <$> markers /\
       Forall (fun m => radius m = 6 /\ fill m = true /\ fill_opacity m = 0.7%float) markers /\
       Forall (fun m => F64.isna (location m).1 = false /\ F64.isna (location m).2 = false)
         markers).
Proof.
  intros Hne. rewrite (map_view_rows s Hne).
  split; [by intros ->|]. intros Hplot. rewrite Hplot.
  exists ((fun ir : nat * RoadRecord => circle_marker ir.2) <$> city_data s).
  split; [reflexivity|].
  rewrite <- !list_fmap_compose.
  split; [reflexivity|]. split; [reflexivity|]. split; [reflexivity|].
  split; [by apply Forall_fmap, Forall_forall|].
  apply Forall_fmap, Forall_forall. intros ir Hin.
  unfold unplottable in Hplot. apply orb_false_elim in Hplot as [_ Hrows].
  rewrite <- not_true_iff_false, existsb_exists in Hrows.
  cbn. destruct (F64.isna (latitude ir.2)) eqn:Elat.
  - exfalso. apply Hrows. exists ir. split; [by apply list_elem_of_In|].
    by rewrite Elat.
  - destruct (F64.isna (longitude ir.2)) eqn:Elon; [|done].
    exfalso. apply Hrows. exists ir. split; [by apply list_elem_of_In|].
    by rewrite Elat, Elon.
Qed.

Lemma map_one_marker_per_row_witness :
  exists markers : list Marker,
    drawn (@map_view Reference.stable) karachi_session =
      [Subheader "Accident Risk Map of Karachi";
       FoliumMap (24.87%float, 67.08%float) 12 markers] /\
    location <$> markers = [(24.87%float, 67.08%float)] /\
    color <$> markers = ["red"].
Proof.
  assert (Hne : city_data karachi_session <> []) by discriminate.
  destruct (proj2 (@map_one_marker_per_row Reference.stable karachi_session Hne) eq_refl)
    as (markers & Hview & Hloc & Hcol & _).
  exists markers. split; [|split; [exact Hloc|exact Hcol]].
  exact (drawn_shows _ _ _ _ Hview).
Defined.

(* ================================================================= *)
(** ** A row without a score *)



(* ================================================================= *)
(** ** The outcomes of the views *)

(** [round] answers exactly on the finite floats. *)
Lemma round_finite (x : float) :
  (exists n : Z, Py.round x = inr n) <-> PrimFloat.is_finite x = true.
Proof.
  unfold Py.round, is_finite, is_infinity, is_nan.
  rewrite !FloatAxioms.eqb_spec, FloatAxioms.abs_spec.
  change (Prim2SF infinity) with (S754_infinity false).
  destruct (Prim2SF x) as [[]|[]| |[] m e] eqn:E; unfold SFeqb; cbn;
    rewrite ?Z.compare_refl, ?Pos.compare_cont_refl; cbn;
    split; intros Hx; try discriminate; try (destruct Hx; discriminate); eauto.
Qed.

Lemma round_never_IndexError (x : float) : Py.round x <> inl IndexError.
Proof. unfold Py.round. by destruct (Prim2SF x) as [[]|[]| |[] m e]. Qed.

Lemma trend_rate_ok `{Library} (df : DataFrame) :
  (exists base : Z, trend_rate df = inr base) <->
  exists n : Z,
    Py.round (mean (scores df) * 10)%float = inr n /\
    F64.le (F64.of_Z (Z.max n 1)) poisson_lam_max = true.
Proof.
  unfold trend_rate. destruct (Py.round _) as [e|n].
  - split; [intros [base [=]]|intros (n & [=] & _)].
  - destruct (F64.le _ _) eqn:Ele.
    + split; [intros _; by exists n|intros _; by exists (Z.max n 1)].
    + split; [intros [base [=]]|]. intros (n' & [= <-] & Hle). congruence.
Qed.

Lemma trend_rate_error `{Library} (df : DataFrame) (e : exn) :
  trend_rate df = inl e -> e = ValueError \/ e = OverflowError.
Proof.
  unfold trend_rate.
  destruct (Py.round _) as [e'|n] eqn:Er.
  - intros [= <-]. destruct e'; auto. by apply round_never_IndexError in Er.
  - destruct (F64.le _ _); [discriminate|]. intros [= <-]. by left.
Qed.

(** X11. With a sort that sorts, the four views end normally exactly when
    the city has no row, or its rows can be put on the map, ten times the
    mean score rounds to an integer and the rate of the chart (that
    integer, at least 1) is not above the bound of the Poisson draw. They
    then leave on the page what was there, followed by what they draw,
    the three tabs of the city last. Otherwise they stop on a ValueError
    or an OverflowError, never on an IndexError. *)
Theorem views_outcomes `{Library} `{!ArgsortSorts} (s : Session) :
  ((views s).1 = inr tt <->
     city_data s = [] \/
     unplottable (city_data s) = false /\
     exists n : Z,
       Py.round (mean (scores (city_data s)) * 10)%float = inr n /\
       F64.le (F64.of_Z (Z.max n 1)) poisson_lam_max = true) /\
  ((views s).1 = inr tt ->
     exists ws : list Widget,
       page (views s).2 = page s ++ ws ++ tab_widgets (city_data s)) /\
  ((views s).1 <> inr tt ->
     (views s).1 = inl ValueError \/ (views s).1 = inl OverflowError) /\
  (views s).1 <> inl IndexError.
Proof.
  destruct (views_run s) as (top & _ & ->).
  pose proof (trend_rate_ok (city_data s)) as Hok.
  pose proof (trend_rate_error (city_data s)) as Herr.
  destruct (city_data s) as [|ir cd] eqn:Ecd.
  - cbn [fst snd]. split; [split; [by left|done]|]. split; [|split; [done|discriminate]].
    intros _.
    exists ([Info "No data available for this city."] ++ table_widgets top ++
            [Subheader "High‑Risk Trend (Last 7 Days)";
             Write "Insufficient data to display risk trend."]).
    cbn [page shows]. by rewrite <- !app_assoc.
  - destruct (unplottable (ir :: cd)).
    { cbn [fst snd]. split; [|split; [discriminate|split; [by left|discriminate]]].
      split; [discriminate|]. intros [Hnil | [Hplot _]]; discriminate. }
    destruct (trend_rate (ir :: cd)) as [e|base]; cbn [fst snd].
    + split; [|split; [discriminate|split]].
      * split; [discriminate|]. intros [Hnil | [_ Hn]]; [discriminate|].
        apply Hok in Hn as [base [=]].
      * intros _. destruct (Herr e eq_refl) as [-> | ->]; auto.
      * destruct (Herr e eq_refl) as [-> | ->]; discriminate.
    + split; [|split; [|split; [done|discriminate]]].
      * split; [|done]. intros _. right. split; [reflexivity|]. apply Hok. by exists base.
      * intros _.
        exists (map_widgets (selected_city s) (ir :: cd) ++ table_widgets top ++
                [Subheader "High‑Risk Trend (Last 7 Days)";
                 Pyplot ("High‑Risk Trend in " +:+ Py.str (selected_city s)) base 7]).
        cbn [page shows]. by rewrite <- !app_assoc.
Qed.

Lemma views_outcomes_witness :
  (@views Reference.stable (@at_views Reference.stable sample_csv (Some "Lahore"))).1 = inr tt /\
  (@views Reference.stable (@at_views Reference.stable unscored_csv (Some "Multan"))).1
    = inl ValueError.
Proof.
  split.
  - apply (proj1 (@views_outcomes Reference.stable ReferenceFacts.stable_sorts
                    (@at_views Reference.stable sample_csv (Some "Lahore")))).
    right. split; [reflexivity|]. exists 6%Z. split; reflexivity.
  - reflexivity.
Defined.

(** X12. A city that has rows, all of which can be put on the map, but
    whose mean score is not a number (no row of it has a score) stops the
    views at the chart: [round] raises ValueError once the map, the
    ranking and the heading of the chart are drawn, and neither the chart
    nor the tabs are. *)
Theorem unscored_city_stops_at_chart `{Library} `{!ArgsortSorts} (s : Session) :
  city_data s <> [] ->
  unplottable (city_data s) = false ->
  F64.isna (mean (scores (city_data s))) = true ->
  (views s).1 = inl ValueError /\
  (exists top : DataFrame,
     top_n (city_data s) = Some top /\
     drawn views s =
       map_widgets (selected_city s) (city_data s) ++ table_widgets top ++
       [Subheader "High‑Risk Trend (Last 7 Days)"]) /\
  last (drawn views s) = Some (Subheader "High‑Risk Trend (Last 7 Days)") /\
  existsb is_chart (drawn views s) = false /\
  existsb is_tab_widget (drawn views s) = false.
Proof.
  intros Hne Hplot Hnan.
  destruct (views_run s) as (top & Htop & Hrun).
  assert (Hrate : trend_rate (city_data s) = inl ValueError).
  { unfold trend_rate. by rewrite (isna_eq_nan _ Hnan). }
  rewrite Hplot, Hrate in Hrun.
  destruct (city_data s) as [|ir cd] eqn:Ecd; [done|].
  rewrite Hrun, (drawn_shows _ _ _ _ Hrun). cbn [fst].
  split; [reflexivity|]. split; [by exists top|]. split.
  - by rewrite !app_assoc, last_snoc.
  - rewrite !List.existsb_app. split; reflexivity.
Qed.

Lemma unscored_city_stops_at_chart_witness :
  last (drawn (@views Reference.stable)
          (@at_views Reference.stable unscored_csv (Some "Multan")))
    = Some (Subheader "High‑Risk Trend (Last 7 Days)") /\
  (@views Reference.stable (@at_views Reference.stable unscored_csv (Some "Multan"))).1
    = inl ValueError.
Proof.
  assert (Hne : city_data (@at_views Reference.stable unscored_csv (Some "Multan")) <> [])
    by discriminate.
  destruct (@unscored_city_stops_at_chart Reference.stable ReferenceFacts.stable_sorts
              _ Hne eq_refl eq_refl) as (Herr & _ & Hlast & _).
  split; [exact Hlast|exact Herr].
Defined.

(** X13. A chart on the page means the run went through: the city has
    rows, the chart is titled after the city, it spans 7 days and its
    Poisson rate is at least 1. *)
Theorem chart_rate_positive `{Library} `{!ArgsortSorts}
    (csv : list RawRow) (choice : option string) (title : string) (base : Z) (periods : nat) :
  Pyplot title base periods ∈ page (main csv choice start).2 ->
  (1 <= base)%Z /\ periods = 7%nat /\
  title = "High‑Risk Trend in " +:+ Py.str choice /\
  filter_by_city (load_data csv) choice <> [] /\
  (main csv choice start).1 = inr tt.
Proof.
  rewrite main_steps.
  destruct (views_run (at_views csv choice)) as (top & _ & ->).
  change (city_data (at_views csv choice)) with (filter_by_city (load_data csv) choice).
  change (selected_city (at_views csv choice)) with choice.
  destruct (filter_by_city (load_data csv) choice) as [|ir cd] eqn:Ecd;
    [|destruct (unplottable _); [|destruct (trend_rate _) as [e|rate] eqn:Er]];
    cbn [fst snd page shows at_views];
    unfold header, map_widgets, table_widgets, top_display, tab_widgets, score_table;
    rewrite ?elem_of_app, ?elem_of_cons, ?elem_of_nil;
    intros Hin; repeat destruct Hin as [Hin | Hin]; try discriminate; try done.
  injection Hin as -> -> ->. apply trend_rate_positive in Er.
  repeat split; [exact Er|discriminate].
Qed.

Lemma chart_rate_positive_witness :
  Pyplot "High‑Risk Trend in Lahore" 6 7
    ∈ page (@main Reference.stable sample_csv (Some "Lahore") start).2 /\
  (1 <= 6)%Z.
Proof.
  assert (Hin : Pyplot "High‑Risk Trend in Lahore" 6 7
                  ∈ page (@main Reference.stable sample_csv (Some "Lahore") start).2)
    by (apply (list_elem_of_lookup_2 _ 8%nat); reflexivity).
  split; [exact Hin|].
  exact (proj1 (@chart_rate_positive Reference.stable ReferenceFacts.stable_sorts
                  sample_csv (Some "Lahore") _ _ _ Hin)).
Defined.
